(** * Weather pipeline: fetch, normalise, combine, aggregate

    A shallow embedding of the fetch-normalize-aggregate core of
    [cloud_weather_project]:

    - [src/fetch_weather.py]   : [_build_session], [_get_json],
      [fetch_for_location], [fetch_forecast], [save_raw_json];
    - [src/process_weather.py] : [_hourly_to_df], [combine_hourly],
      [save_parquet], [summarize_daily];
    - [src/analyze_weather.py] : [save_csv], [plot_timeseries];
    - [src/upload_cloud.py]    : [upload_path_to_s3];
    - [scripts/run_pipeline.py]: [_worker_fetch_city], [run_pipeline].

    Python exceptions are values of [exn] carried by [result]; file writes
    are logged by a writer monad [IO]; an HTTP endpoint is an oracle
    telling what the server does on its n-th request.

    The library calls are modelled after what they do on the data the
    pipeline handles:
    - requests/urllib3: one [Retry] budget per [_SESSION.get], statuses of
      the force list and [Retry-After] retried by the transport;
    - pandas: a frame is its column names and its rows; the [time] column
      holds timestamps or NaT, a measurement column numbers or NaN.
      JSON numbers and float cells are exact rationals ([Q]).  The sums of
      the aggregates are exact, which is what float64 and int64 give as
      long as no partial sum needs more than 53 bits; the quotient of a
      mean is rounded to the nearest float64.  The dtype of a column is
      not modelled;
    - the timestamp parser of [pd.to_datetime] is a parameter of the
      model; [Iso8601] gives one instance of it for the examples. *)

From Stdlib Require Import List String Ascii Bool Arith ZArith QArith Lia.
From Stdlib Require Import Permutation Sorted OrderedTypeEx.
Import ListNotations.

Set Warnings "-register-all".

Local Close Scope Q_scope.
Local Open Scope string_scope.
Local Open Scope list_scope.

(** ** Python values and exceptions *)

(** A decoded JSON document ([resp.json()], [Dict[str, Any]]).  An object
    keeps its items in insertion order, as a Python dict does. *)
Inductive json : Type :=
| JNull
| JBool (b : bool)
| JNum (q : Q)
| JStr (s : string)
| JArr (items : list json)
| JObj (members : list (string * json)).

(** The exceptions the modelled code can raise. *)
Inductive exn : Type :=
| AttributeError            (* [.get] on something that is not a dict *)
| ValueError                (* pandas: lengths do not match, nothing to concatenate *)
| TypeError                 (* pandas: aggregation of a non-numeric column *)
| KeyError (k : string)     (* pandas: no such column *)
| HTTPError (status : Z)    (* requests: [raise_for_status] *)
| ConnectionError           (* requests: transport retries exhausted *)
| JSONDecodeError           (* requests: the body is not JSON *)
| SystemExit (code : Z).    (* [sys.exit] *)

Inductive result (A : Type) : Type :=
| Ok (a : A)
| Raise (e : exn).
Arguments Ok {A} a.
Arguments Raise {A} e.

Definition rbind {A B} (r : result A) (k : A -> result B) : result B :=
  match r with
  | Ok a => k a
  | Raise e => Raise e
  end.

Declare Scope result_scope.
Delimit Scope result_scope with result.
Notation "x <- r ;; k" := (rbind r (fun x => k))
  (at level 61, r at next level, right associativity) : result_scope.

(** Looking a key up in a dict's items. *)
Fixpoint assoc {A} (k : string) (kvs : list (string * A)) : option A :=
  match kvs with
  | [] => None
  | (k', v) :: rest => if k' =? k then Some v else assoc k rest
  end.

(** Python truthiness: [if x:] / [not x]. *)
Definition truthy (j : json) : bool :=
  match j with
  | JNull => false
  | JBool b => b
  | JNum q => negb (Qeq_bool q 0)
  | JStr s => negb (s =? EmptyString)
  | JArr items => match items with [] => false | _ => true end
  | JObj members => match members with [] => false | _ => true end
  end.

(** [d.get(k, default)]: only a dict has [.get]. *)
Definition dict_get (d : json) (k : string) (default : json) : result json :=
  match d with
  | JObj members =>
      Ok (match assoc k members with Some v => v | None => default end)
  | _ => Raise AttributeError
  end.

(** ** fetch_weather.py: the HTTP client *)

Module Http.

Record Response : Type := mkResponse {
  status_code : Z;
  retry_after : bool;         (* the response carries a [Retry-After] header *)
  body : option json          (* [None]: the body does not decode as JSON *)
}.

(** What one request on the wire ends in.  An answer is final: redirects
    are not modelled, so the model is about endpoints that answer with no
    3xx status. *)
Inductive wire : Type :=
| Answer (r : Response)
| ConnectFail                 (* connection error or connect timeout *)
| ReadFail.                   (* read timeout ([timeout=30]) *)

(** The behaviour of an endpoint: the outcome of its n-th request (from 0). *)
Definition endpoint : Type := nat -> wire.

(** [urllib3.util.retry.Retry]: remaining budgets.  A budget of [n] allows
    [n] retries; the next failure after that exhausts it. *)
Record Retry : Type := mkRetry {
  total : nat;
  connect : nat;
  read : nat;
  status : nat;
  status_forcelist : list Z
}.

(** [_build_session]: the [Retry] mounted on the session's adapter
    ([allowed_methods=["GET"]], [raise_on_status=False]). *)
Definition session_retry : Retry :=
  mkRetry 6 3 3 6 [429; 500; 502; 503; 504]%Z.

(** [Retry.RETRY_AFTER_STATUS_CODES]. *)
Definition RETRY_AFTER_STATUS_CODES : list Z := [413; 429; 503]%Z.

(** [Retry.is_retry] for a GET: the status is in the force list, or the
    response carries [Retry-After] and has one of the statuses that header
    is honoured for ([respect_retry_after_header] is on by default). *)
Definition is_retry (forcelist : list Z) (resp : Response) : bool :=
  existsb (Z.eqb (status_code resp)) forcelist
  || (retry_after resp
      && existsb (Z.eqb (status_code resp)) RETRY_AFTER_STATUS_CODES).

(** [_SESSION.get(url, params=params, timeout=30)]: urllib3's [urlopen]
    under a [Retry].  Returns the response or the transport error, and the
    number of requests the endpoint has seen so far.  With
    [raise_on_status=False] the last response is returned once the status
    budget is exhausted.  Recursion is on the [total] budget. *)
Fixpoint urlopen (total connect read status : nat) (forcelist : list Z)
    (ep : endpoint) (n : nat) {struct total} : result Response * nat :=
  match ep n with
  | Answer r =>
      if is_retry forcelist r then
        match total with
        | S total' =>
            match status with
            | S status' =>
                urlopen total' connect read status' forcelist ep (S n)
            | O => (Ok r, S n)
            end
        | O => (Ok r, S n)
        end
      else (Ok r, S n)
  | ConnectFail =>
      match total with
      | S total' =>
          match connect with
          | S connect' =>
              urlopen total' connect' read status forcelist ep (S n)
          | O => (Raise ConnectionError, S n)
          end
      | O => (Raise ConnectionError, S n)
      end
  | ReadFail =>
      match total with
      | S total' =>
          match read with
          | S read' =>
              urlopen total' connect read' status forcelist ep (S n)
          | O => (Raise ConnectionError, S n)
          end
      | O => (Raise ConnectionError, S n)
      end
  end.

Definition session_get (ep : endpoint) (n : nat) : result Response * nat :=
  let r := session_retry in
  urlopen (total r) (connect r) (read r) (status r) (status_forcelist r) ep n.

(** [resp.raise_for_status()]: [HTTPError] for 4xx and 5xx. *)
Definition raise_for_status (resp : Response) : result unit :=
  if ((400 <=? status_code resp) && (status_code resp <? 600))%Z
  then Raise (HTTPError (status_code resp))
  else Ok tt.

(** [resp.json()]. *)
Definition resp_json (resp : Response) : result json :=
  match body resp with
  | Some j => Ok j
  | None => Raise JSONDecodeError
  end.

(** The body of [for attempt in range(1, 8)] of [_get_json], over the
    attempts that are left, followed by the two statements after the loop.
    [last] is the variable [resp] as the previous iteration left it.
    Sleeping ([time.sleep] with jitter) changes no value and is left out. *)
Fixpoint _get_json_loop (attempts : list nat) (last : option Response)
    (ep : endpoint) (n : nat) : result json * nat :=
  match attempts with
  | [] =>
      match last with
      | Some resp =>
          (match raise_for_status resp with
           | Ok _ => resp_json resp
           | Raise e => Raise e
           end, n)
      | None => (Raise (KeyError "resp"), n)   (* [range(1, 8)] is not empty *)
      end
  | attempt :: rest =>
      match session_get ep n with
      | (Raise e, n') => (Raise e, n')         (* not an [HTTPError]: not caught *)
      | (Ok resp, n') =>
          if (status_code resp =? 429)%Z then
            _get_json_loop rest (Some resp) ep n'
          else
            match raise_for_status resp with
            | Ok _ => (resp_json resp, n')
            | Raise e =>
                if (7 <=? attempt)%nat then (Raise e, n')
                else _get_json_loop rest (Some resp) ep n'
            end
      end
  end.

(** [_get_json(url, params)] against the endpoint that [url] and [params]
    select, starting when it has seen [n] requests. *)
Definition _get_json (ep : endpoint) (n : nat) : result json * nat :=
  _get_json_loop (seq 1 7) None ep n.

(** An endpoint that plays a script and then keeps giving [after]. *)
Definition scripted (script : list wire) (after : wire) : endpoint :=
  fun n => nth n script after.

Definition http (code : Z) (b : option json) : wire :=
  Answer (mkResponse code false b).

(** Endpoints for the examples. *)
Definition sample_body : json :=
  JObj [("latitude", JNum (30 # 1)); ("hourly", JObj [("time", JArr [])])].

Definition always_404 : endpoint := scripted [] (http 404 None).

Definition once_404_then_200 : endpoint :=
  scripted [http 404 None] (http 200 (Some sample_body)).

Definition rate_limited_thrice : endpoint :=
  scripted [http 429 None; http 429 None; http 429 None]
           (http 200 (Some sample_body)).

Definition always_429 : endpoint := scripted [] (http 429 None).

Definition unreachable : endpoint := scripted [] ConnectFail.

Definition html_200 : endpoint := scripted [] (http 200 None).

End Http.

(** ** Strings and paths *)

(** [str.lower()] on ASCII letters (location names are taken to be ASCII;
    every other character is left as it is). *)
Definition lower_ascii (c : ascii) : ascii :=
  let n := nat_of_ascii c in
  if ((65 <=? n) && (n <=? 90))%nat then ascii_of_nat (n + 32) else c.

Fixpoint lower (s : string) : string :=
  match s with
  | EmptyString => EmptyString
  | String c rest => String (lower_ascii c) (lower rest)
  end.

(** [s.replace(" ", "_")]. *)
Fixpoint replace_space (s : string) : string :=
  match s with
  | EmptyString => EmptyString
  | String c rest =>
      String (if Ascii.eqb c " "%char then "_"%char else c) (replace_space rest)
  end.

Definition startswith_sep (s : string) : bool :=
  match s with
  | String c _ => Ascii.eqb c "/"%char
  | EmptyString => false
  end.

Fixpoint endswith_sep (s : string) : bool :=
  match s with
  | EmptyString => false
  | String c EmptyString => Ascii.eqb c "/"%char
  | String _ rest => endswith_sep rest
  end.

(** [os.path.join(a, b)] ([posixpath]). *)
Definition os_path_join (a b : string) : string :=
  if startswith_sep b then b
  else if (a =? EmptyString) || endswith_sep a then a ++ b
  else a ++ "/" ++ b.

(** [sep.join(parts)]. *)
Fixpoint join (sep : string) (parts : list string) : string :=
  match parts with
  | [] => EmptyString
  | [p] => p
  | p :: rest => p ++ sep ++ join sep rest
  end.

(** Every character of the string passes the test. *)
Fixpoint string_forall (p : ascii -> bool) (s : string) : bool :=
  match s with
  | EmptyString => true
  | String c rest => p c && string_forall p rest
  end.

Definition is_upper (c : ascii) : bool :=
  let n := nat_of_ascii c in ((65 <=? n) && (n <=? 90))%nat.

(** Neither a space nor an upper-case ASCII letter. *)
Definition tidy (c : ascii) : bool :=
  negb (is_upper c) && negb (Ascii.eqb c " "%char).




(** ** float64 *)

(** The integer nearest to [n / d], for [d > 0]; a tie goes to the even
    one. *)
Definition round_half_even (n d : Z) : Z :=
  let q := (n / d)%Z in
  match (2 * (n mod d) ?= d)%Z with
  | Lt => q
  | Gt => (q + 1)%Z
  | Eq => if Z.even q then q else (q + 1)%Z
  end.

(** The integer part of the binary logarithm of [n / d], for positive [n]
    and [d]. *)
Definition floor_log2 (n d : Z) : Z :=
  let k := (Z.log2 n - Z.log2 d)%Z in
  if (if 0 <=? k then d * 2 ^ k <=? n else d <=? n * 2 ^ (- k))%Z
  then k else (k - 1)%Z.

(** The float64 nearest to a rational (IEEE 754 binary64, round to nearest,
    ties to even): a significand of 53 bits, and the fixed step [2^-1074]
    below the normal range.  Overflow to infinity is not modelled. *)
Definition float64 (q : Q) : Q :=
  let r := Qred q in
  let n := Z.abs (Qnum r) in
  let d := Zpos (Qden r) in
  if (n =? 0)%Z then 0%Q
  else
    let e := Z.max (floor_log2 n d - 52) (-1074) in
    let m := if (0 <=? e)%Z then round_half_even n (d * 2 ^ e)
             else round_half_even (n * 2 ^ (- e)) d in
    if (0 <=? e)%Z then inject_Z (Z.sgn (Qnum r) * m * 2 ^ e)
    else Qmake (Z.sgn (Qnum r) * m) (Z.to_pos (2 ^ (- e))).

(** A number that a float64 holds exactly: [m / 2^j] with [|m| <= 2^53]
    and [j <= 1000]. *)
Definition dyadic53 (q : Q) : bool :=
  let r := Qred q in
  let j := Z.log2 (Zpos (Qden r)) in
  ((Z.abs (Qnum r) <=? 2 ^ 53) && (Zpos (Qden r) =? 2 ^ j) && (j <=? 1000))%Z.

(** ** pandas: the data frames of process_weather.py *)

Module Pandas.

(** One row of an hourly frame: the [time] column (datetime64[ns, UTC],
    nanoseconds since the epoch, [None] for NaT), the [city] column, and
    the cells of the remaining columns by name.  A column of the frame that
    a row has no cell for holds NaN there, as after an outer [concat]. *)
Record Row : Type := mkRow {
  time : option Z;
  city : string;
  cells : list (string * json)
}.

Record DataFrame : Type := mkFrame {
  columns : list string;
  rows : list Row
}.

(** [pd.DataFrame()]. *)
Definition empty_frame : DataFrame := mkFrame [] [].

(** [df.empty]: some axis has length 0. *)
Definition empty (df : DataFrame) : bool :=
  match columns df, rows df with
  | [], _ => true
  | _, [] => true
  | _, _ => false
  end.

Definition has_column (df : DataFrame) (c : string) : bool :=
  existsb (String.eqb c) (columns df).

(** The cell of a row in a column other than [time] and [city]. *)
Definition cell (c : string) (r : Row) : json :=
  match assoc c (cells r) with
  | Some v => v
  | None => JNull
  end.

(** A frame while [_hourly_to_df] assigns its columns: the length of the
    index, the [time] column and the other columns, each as long as the
    index, and the labels of the index: [None] for the default
    [RangeIndex], the keys of a dict once a dict has given the frame its
    index. *)
Record Columns : Type := mkColumns {
  nrows : nat;
  times : list (option Z);
  cols : list (string * list json);
  labels : option (list string)
}.

(** Replace the column [key], or append it. *)
Fixpoint put (key : string) (vs : list json) (cs : list (string * list json))
    : list (string * list json) :=
  match cs with
  | [] => [(key, vs)]
  | (k, old) :: rest =>
      if k =? key then (k, vs) :: rest else (k, old) :: put key vs rest
  end.

(** [_ensure_valid_index]: a frame that has no rows yet takes its index
    from the first non-empty list or dict assigned to it; the columns it
    already has are filled with NaN / NaT. *)
Definition reindex (m : nat) (df : Columns) : Columns :=
  mkColumns m (repeat None m) (map (fun kc => (fst kc, repeat JNull m)) (cols df))
            None.

(** A dict as a column: [Series(members).reindex(index)].  Its keys are
    strings, so on a [RangeIndex] no entry has a label of the index and the
    column is NaN throughout; on an index of strings a row takes the entry
    under its label. *)
Definition align (index : option (list string)) (n : nat)
    (members : list (string * json)) : list json :=
  match index with
  | None => repeat JNull n
  | Some ls => map (fun l => match assoc l members with
                             | Some v => v
                             | None => JNull
                             end) ls
  end.

(** [df[key] = values].  A list must be as long as the index
    ([ValueError: Length of values does not match length of index]); a
    scalar is broadcast; a dict is aligned on the index, and a non-empty
    dict gives a frame without rows its keys as the index. *)
Definition setitem (df : Columns) (key : string) (values : json) : result Columns :=
  match values with
  | JArr vs =>
      if (List.length vs =? nrows df)%nat then
        Ok (mkColumns (nrows df) (times df) (put key vs (cols df)) (labels df))
      else if (nrows df =? 0)%nat then
        let df' := reindex (List.length vs) df in
        Ok (mkColumns (nrows df') (times df') (put key vs (cols df')) None)
      else Raise ValueError
  | JObj members =>
      if (nrows df =? 0)%nat && negb (List.length members =? 0)%nat then
        let df' := reindex (List.length members) df in
        Ok (mkColumns (nrows df') (times df')
              (put key (map snd members) (cols df')) (Some (map fst members)))
      else
        Ok (mkColumns (nrows df) (times df)
              (put key (align (labels df) (nrows df) members) (cols df))
              (labels df))
  | scalar =>
      Ok (mkColumns (nrows df) (times df)
            (put key (repeat scalar (nrows df)) (cols df)) (labels df))
  end.

(** The loop [for key, values in hourly.items()] of [_hourly_to_df]. *)
Fixpoint assign_columns (items : list (string * json)) (df : Columns)
    : result Columns :=
  match items with
  | [] => Ok df
  | (key, values) :: rest =>
      if key =? "time" then assign_columns rest df
      else
        match setitem df key values with
        | Ok df' => assign_columns rest df'
        | Raise e => Raise e
        end
  end.

(** The fields of an hourly block as the API sends them: every field but
    [time] is a list with one entry per timestamp. *)
Definition aligned (n : nat) (fields : list (string * json)) : Prop :=
  Forall (fun kv => fst kv = "time" \/
                    exists vs, snd kv = JArr vs /\ List.length vs = n) fields.

(** The entries of a [time] list as the API sends them: strings, or null. *)
Definition time_strings (xs : list json) : bool :=
  forallb (fun x => match x with JStr _ | JNull => true | _ => false end) xs.

(** An entry of a measurement list as the API sends them: null, or a
    number that the float64 column holds as it is. *)
Definition measurement (j : json) : bool :=
  match j with
  | JNull => true
  | JNum q => dyadic53 q
  | _ => false
  end.

(** The frame once [df["city"] = city] is done, row by row. *)
Definition row_at (df : Columns) (city : string) (i : nat) : Row :=
  mkRow (nth i (times df) None) city
        (map (fun kc => (fst kc, nth i (snd kc) JNull))
             (filter (fun kc => negb (fst kc =? "city")) (cols df))).

Definition with_city (df : Columns) (city : string) : DataFrame :=
  mkFrame ("time" :: map fst (put "city" [] (cols df)))
          (map (row_at df city) (seq 0 (nrows df))).

Section Normalize.

(** [pd.to_datetime(xs, errors="coerce", utc=True)] entry by entry: the
    timestamp of an entry, or NaT for one that does not parse.  The result
    for an entry may depend on the whole list (pandas infers the format
    from its first string), which is the first argument. *)
Variable coerce_datetime : list json -> json -> option Z.

Definition to_datetime (xs : list json) : list (option Z) :=
  map (coerce_datetime xs) xs.

(** [pd.DataFrame({"time": pd.to_datetime(time_col, ...)})].  For a
    [time_col] that is not a list [to_datetime] gives a scalar and the
    constructor raises ([If using all scalar values, you must pass an
    index]).  The entries of a list are taken to be strings or nulls, as
    the API sends them ([time_strings]); what [to_datetime] makes of a
    list that holds other values is outside the model. *)
Definition time_frame (time_col : json) : result Columns :=
  match time_col with
  | JArr xs => Ok (mkColumns (List.length xs) (to_datetime xs) [] None)
  | _ => Raise ValueError
  end.

Definition _hourly_to_df (raw : json) (city : string) : result DataFrame :=
  (hourly <- dict_get raw "hourly" (JObj []) ;;
   if negb (truthy hourly) then Ok empty_frame
   else
     time_col <- dict_get hourly "time" (JArr []) ;;
     df <- time_frame time_col ;;
     df <- assign_columns
             (match hourly with JObj members => members | _ => [] end) df ;;
     Ok (with_city df city))%result.

(** [pd.concat(dfs, ignore_index=True)]: the rows one frame after the
    other, under the union of the columns in order of first appearance. *)
Fixpoint union_columns (seen : list string) (names : list string) : list string :=
  match names with
  | [] => []
  | c :: rest =>
      if existsb (String.eqb c) seen then union_columns seen rest
      else c :: union_columns (c :: seen) rest
  end.

Definition concat (dfs : list DataFrame) : result DataFrame :=
  match dfs with
  | [] => Raise ValueError        (* No objects to concatenate *)
  | _ => Ok (mkFrame (union_columns [] (flat_map columns dfs))
                     (flat_map rows dfs))
  end.

(** The key of [drop_duplicates(subset=["city", "time"])]; two NaT are the
    same key. *)
Definition key : Type := string * option Z.

Definition row_key (r : Row) : key := (city r, time r).

Definition key_eqb (a b : key) : bool :=
  (fst a =? fst b) &&
  match snd a, snd b with
  | Some x, Some y => (x =? y)%Z
  | None, None => true
  | _, _ => false
  end.

Definition keys (rs : list Row) : list key := map row_key rs.

(** No row of one table has the key of a row of the other. *)
Definition share_no_key (a b : list Row) : Prop :=
  forall k, In k (keys a) -> ~ In k (keys b).

(** [duplicated(keep="first")]: a row is dropped when its key was seen in
    an earlier row. *)
Fixpoint drop_seen (seen : list key) (rs : list Row) : list Row :=
  match rs with
  | [] => []
  | r :: rest =>
      if existsb (key_eqb (row_key r)) seen then drop_seen seen rest
      else r :: drop_seen (row_key r :: seen) rest
  end.

Definition drop_duplicates_city_time (df : DataFrame) : result DataFrame :=
  if empty df then Ok df
  else if negb (has_column df "city") then Raise (KeyError "city")
  else if negb (has_column df "time") then Raise (KeyError "time")
  else Ok (mkFrame (columns df) (drop_seen [] (rows df))).

(** Ascending order of the [time] column, NaT last ([na_position="last"]). *)
Definition time_leb (a b : option Z) : bool :=
  match a, b with
  | Some x, Some y => (x <=? y)%Z
  | _, None => true
  | None, Some _ => false
  end.

Definition by_time (a b : Row) : bool := time_leb (time a) (time b).

(** Ascending lexicographic order of [(city, time)]. *)
Definition city_time_leb (a b : Row) : bool :=
  if city a =? city b then time_leb (time a) (time b)
  else String.leb (city a) (city b).

(** A stable sort: rows of equal keys keep their order. *)
Fixpoint insert_sorted {A} (leb : A -> A -> bool) (x : A) (l : list A) : list A :=
  match l with
  | [] => [x]
  | y :: rest => if leb x y then x :: l else y :: insert_sorted leb x rest
  end.

Fixpoint sort_rows {A} (leb : A -> A -> bool) (l : list A) : list A :=
  match l with
  | [] => []
  | x :: rest => insert_sorted leb x (sort_rows leb rest)
  end.


(** [df.sort_values("time").reset_index(drop=True)]. *)
Definition sort_values_time (df : DataFrame) : result DataFrame :=
  if negb (has_column df "time") then Raise (KeyError "time")
  else Ok (mkFrame (columns df) (sort_rows by_time (rows df))).

(** [df.sort_values(["city", "time"]).reset_index(drop=True)]. *)
Definition sort_values_city_time (df : DataFrame) : result DataFrame :=
  if negb (has_column df "city") then Raise (KeyError "city")
  else if negb (has_column df "time") then Raise (KeyError "time")
  else Ok (mkFrame (columns df) (sort_rows city_time_leb (rows df))).

Definition combine_hourly (raw_archive raw_forecast : json) (city : string)
    : result DataFrame :=
  (dfs <- (if truthy raw_archive
           then df <- _hourly_to_df raw_archive city ;; Ok [df]
           else Ok []) ;;
   dfs <- (if truthy raw_forecast
           then df <- _hourly_to_df raw_forecast city ;; Ok (dfs ++ [df])
           else Ok dfs) ;;
   match dfs with
   | [] => Ok empty_frame
   | _ =>
       out <- concat dfs ;;
       out <- drop_duplicates_city_time out ;;
       sort_values_time out
   end)%result.

(** A payload without an hourly block, or with a falsy one. *)
Definition lacks_hourly (raw : json) : bool :=
  match raw with
  | JObj members =>
      match assoc "hourly" members with
      | Some hourly => negb (truthy hourly)
      | None => true
      end
  | _ => false
  end.

(** A table built by [combine_hourly] for the city [c]. *)
Definition built_for (c : string) (t : DataFrame) : Prop :=
  exists raw_archive raw_forecast,
    combine_hourly raw_archive raw_forecast c = Ok t.

End Normalize.

(** *** summarize_daily *)

(** A value of [agg_map]: one function name, or a list of them. *)
Inductive aggspec : Type :=
| Func (f : string)
| Funcs (fs : list string).

Definition agg_map : list (string * aggspec) :=
  [ ("temperature_2m", Funcs ["mean"; "min"; "max"]);
    ("relative_humidity_2m", Func "mean");
    ("precipitation", Func "sum");
    ("rain", Func "sum");
    ("snowfall", Func "sum");
    ("windspeed_10m", Func "mean");
    ("cloudcover", Func "mean");
    ("pressure_msl", Func "mean") ].

(** As one value of the dict is a list, [agg] wraps the others into lists
    too, and the result has two-level columns [(field, function)] in the
    order of the dict. *)
Definition agg_funcs (a : aggspec) : list string :=
  match a with
  | Func f => [f]
  | Funcs fs => fs
  end.

Definition agg_columns : list (string * string) :=
  flat_map (fun fa => map (pair (fst fa)) (agg_funcs (snd fa))) agg_map.

(** ["_".join([c for c in col if c])]. *)
Definition flatten_column (col : string * string) : string :=
  join "_" (filter (fun c => negb (c =? EmptyString)) [fst col; snd col]).

(** A float column: numbers and NaN.  Cells that are neither a number nor
    null do not belong in the measurement columns; the model rejects them. *)
Definition to_float (j : json) : result (option Q) :=
  match j with
  | JNull => Ok None
  | JNum q => Ok (Some q)
  | _ => Raise TypeError
  end.

Fixpoint float_column (vs : list json) : result (list (option Q)) :=
  match vs with
  | [] => Ok []
  | v :: rest =>
      match to_float v, float_column rest with
      | Ok x, Ok xs => Ok (x :: xs)
      | Raise e, _ => Raise e
      | _, Raise e => Raise e
      end
  end.

(** The group-by kernels: one pass over the values of a group, NaN skipped.
    The mean is the sum divided by the number of values, a float64
    division. *)
Definition mean_step (acc : nat * Q) (v : option Q) : nat * Q :=
  match v with
  | Some x => (S (fst acc), (snd acc + x)%Q)
  | None => acc
  end.

Definition group_mean (xs : list (option Q)) : option Q :=
  let '(nobs, sumx) := fold_left mean_step xs (O, 0%Q) in
  match nobs with
  | O => None
  | S _ => Some (float64 (sumx / inject_Z (Z.of_nat nobs))%Q)
  end.

Definition sum_step (acc : Q) (v : option Q) : Q :=
  match v with
  | Some x => (acc + x)%Q
  | None => acc
  end.

(** [min_count=0]: the sum of a group without values is 0. *)
Definition group_sum (xs : list (option Q)) : option Q :=
  Some (fold_left sum_step xs 0%Q).

Definition min_step (acc : option Q) (v : option Q) : option Q :=
  match v, acc with
  | Some x, Some m => if Qle_bool m x then Some m else Some x
  | Some x, None => Some x
  | None, _ => acc
  end.

Definition max_step (acc : option Q) (v : option Q) : option Q :=
  match v, acc with
  | Some x, Some m => if Qle_bool x m then Some m else Some x
  | Some x, None => Some x
  | None, _ => acc
  end.

Definition group_min (xs : list (option Q)) : option Q := fold_left min_step xs None.
Definition group_max (xs : list (option Q)) : option Q := fold_left max_step xs None.

(** The kernel a function name of [agg_map] stands for. *)
Definition kernel (f : string) : option (list (option Q) -> option Q) :=
  if f =? "mean" then Some group_mean
  else if f =? "min" then Some group_min
  else if f =? "max" then Some group_max
  else if f =? "sum" then Some group_sum
  else None.

Definition aggregate (f : string) (xs : list (option Q)) : result (option Q) :=
  match kernel f with
  | Some k => Ok (k xs)
  | None => Raise AttributeError
  end.

(** [df["time"].dt.date]: the calendar day of a UTC timestamp, as the
    number of days since 1970-01-01. *)
Definition ns_per_day : Z := 86400000000000.

Definition date_of (t : Z) : Z := (t / ns_per_day)%Z.

Definition row_date (r : Row) : option Z := option_map date_of (time r).

(** The keys of [groupby(["city", "date"])]: sorted, each once; a row
    whose date is NaT is in no group ([dropna=True]). *)
Definition gkey : Type := string * Z.

Definition gkey_compare (a b : gkey) : comparison :=
  match String.compare (fst a) (fst b) with
  | Eq => Z.compare (snd a) (snd b)
  | c => c
  end.

Fixpoint insert_key (k : gkey) (l : list gkey) : list gkey :=
  match l with
  | [] => [k]
  | k' :: rest =>
      match gkey_compare k k' with
      | Lt => k :: l
      | Eq => l
      | Gt => k' :: insert_key k rest
      end
  end.

Definition gkey_lt (a b : gkey) : Prop := gkey_compare a b = Lt.

Definition add_row_key (acc : list gkey) (r : Row) : list gkey :=
  match row_date r with
  | Some d => insert_key (city r, d) acc
  | None => acc
  end.

Definition group_keys (rs : list Row) : list gkey := fold_left add_row_key rs [].

Definition in_group (k : gkey) (r : Row) : bool :=
  (city r =? fst k) &&
  match row_date r with
  | Some d => (d =? snd k)%Z
  | None => false
  end.

Definition group_rows (k : gkey) (rs : list Row) : list Row := filter (in_group k) rs.

(** One row of the daily table. *)
Record DailyRow : Type := mkDailyRow {
  d_city : string;
  d_date : Z;
  aggs : list (string * option Q)
}.

Record DailyFrame : Type := mkDailyFrame {
  d_columns : list string;
  d_rows : list DailyRow
}.

Fixpoint aggregate_columns (acols : list (string * string)) (g : list Row)
    : result (list (option Q)) :=
  match acols with
  | [] => Ok []
  | col :: rest =>
      (xs <- float_column (map (cell (fst col)) g) ;;
       v <- aggregate (snd col) xs ;;
       vs <- aggregate_columns rest g ;;
       Ok (v :: vs))%result
  end.

(** [df.groupby(group_cols).agg(agg_map)], one result row per key. *)
Fixpoint agg_groups (keys : list gkey) (rs : list Row)
    : result (list (gkey * list (option Q))) :=
  match keys with
  | [] => Ok []
  | k :: rest =>
      (vs <- aggregate_columns agg_columns (group_rows k rs) ;;
       others <- agg_groups rest rs ;;
       Ok ((k, vs) :: others))%result
  end.

Definition missing_columns (df : DataFrame) : list string :=
  filter (fun c => negb (has_column df c)) (map fst agg_map).

Definition summarize_daily (hourly_df : DataFrame) : result DailyFrame :=
  if empty hourly_df then Ok (mkDailyFrame (columns hourly_df) [])
  else if negb (has_column hourly_df "time") then Raise (KeyError "time")
  else if negb (has_column hourly_df "city") then Raise (KeyError "city")
  else
    match missing_columns hourly_df with
    | c :: _ => Raise (KeyError c)
    | [] =>
        (daily <- agg_groups (group_keys (rows hourly_df)) (rows hourly_df) ;;
         let names := map flatten_column agg_columns in
         Ok (mkDailyFrame ("city" :: "date" :: names)
               (map (fun kv => mkDailyRow (fst (fst kv)) (snd (fst kv))
                                 (combine names (snd kv)))
                    daily)))%result
    end.

(** Ascending order of [(city, date)]: the city first, then the day. *)
Definition date_order (a b : gkey) : Prop :=
  String.ltb (fst a) (fst b) = true \/
  (fst a = fst b /\ (snd a < snd b)%Z).

(** The row has a timestamp, not NaT. *)
Definition timed (r : Row) : bool :=
  match time r with
  | Some _ => true
  | None => false
  end.

(** The key of a daily row. *)
Definition daily_key (d : DailyRow) : gkey := (d_city d, d_date d).


(** *** Hourly tables of the data model *)

(** The float value of a cell, NaN being [None]. *)
Definition float_of (j : json) : option Q :=
  match j with
  | JNum q => Some q
  | _ => None
  end.

(** The values of the column [f] in the rows [g]. *)
Definition column (f : string) (g : list Row) : list (option Q) :=
  map (fun r => float_of (cell f r)) g.

(** The measurement cells that are aggregated hold numbers or nulls. *)
Definition is_float (j : json) : bool :=
  match j with
  | JNull | JNum _ => true
  | _ => false
  end.

Definition numeric (rs : list Row) : bool :=
  forallb (fun r => forallb (fun f => is_float (cell f r)) (map fst agg_map)) rs.



(** The table has the key columns and every column that is aggregated. *)
Definition complete (df : DataFrame) : bool :=
  forallb (has_column df) ("time" :: "city" :: map fst agg_map).

(** The result row of [agg] for a group of such a table. *)
Definition aggregates (g : list Row) : list (option Q) :=
  map (fun col => match kernel (snd col) with
                  | Some k => k (column (fst col) g)
                  | None => None
                  end) agg_columns.

(** The row of the daily table for the group [k] of such a table. *)
Definition daily_row (rs : list Row) (k : gkey) : DailyRow :=
  mkDailyRow (fst k) (snd k)
    (combine (map flatten_column agg_columns) (aggregates (group_rows k rs))).

(** *** The aggregates as the specification words them *)

Module Spec.


Definition total (l : list Q) : Q := fold_right Qplus 0%Q l.





End Spec.

End Pandas.

(** ** Timestamps of the upstream API *)

(** An instance of [coerce_datetime] for the examples: it reads the local
    ISO-8601 timestamps the API sends ([YYYY-MM-DDTHH:MM]) as UTC and gives
    NaT for every other entry. *)
Module Iso8601.

Definition digit (c : ascii) : option Z :=
  let n := nat_of_ascii c in
  if ((48 <=? n) && (n <=? 57))%nat then Some (Z.of_nat (n - 48)) else None.

Fixpoint number (acc : Z) (s : string) : option Z :=
  match s with
  | EmptyString => Some acc
  | String c rest =>
      match digit c with
      | Some d => number (10 * acc + d) rest
      | None => None
      end
  end.

Definition field (s : string) (from len : nat) : option Z :=
  number 0 (substring from len s).

Definition sep (s : string) (pos : nat) (c : ascii) : bool :=
  match get pos s with
  | Some c' => Ascii.eqb c c'
  | None => false
  end.

Definition is_leap (y : Z) : bool :=
  ((y mod 4 =? 0) && (negb (y mod 100 =? 0) || (y mod 400 =? 0)))%Z.

Definition days_in_month (y m : Z) : Z :=
  if (m =? 2)%Z then (if is_leap y then 29 else 28)%Z
  else if ((m =? 4) || (m =? 6) || (m =? 9) || (m =? 11))%Z then 30%Z
  else 31%Z.

(** Days from 1970-01-01 to the civil date [y-m-d]. *)
Definition days_from_civil (y m d : Z) : Z :=
  (let y' := if m <=? 2 then y - 1 else y in
   let era := y' / 400 in
   let yoe := y' - era * 400 in
   let mp := (m + 9) mod 12 in
   let doy := (153 * mp + 2) / 5 + d - 1 in
   let doe := yoe * 365 + yoe / 4 - yoe / 100 + doy in
   era * 146097 + doe - 719468)%Z.

Definition parse (s : string) : option Z :=
  if (String.length s =? 16)%nat && sep s 4 "-" && sep s 7 "-"
     && sep s 10 "T" && sep s 13 ":"
  then
    match field s 0 4, field s 5 2, field s 8 2, field s 11 2, field s 14 2 with
    | Some y, Some m, Some d, Some h, Some mi =>
        if ((1 <=? m) && (m <=? 12) && (1 <=? d) && (d <=? days_in_month y m)
            && (h <=? 23) && (mi <=? 59))%Z
        then Some (((days_from_civil y m d * 24 + h) * 60 + mi) * 60000000000)%Z
        else None
    | _, _, _, _, _ => None
    end
  else None.

Definition coerce (xs : list json) (x : json) : option Z :=
  match x with
  | JStr s => parse s
  | _ => None
  end.

End Iso8601.

(** ** Files and the pipeline *)

Module Pipeline.
Import Pandas.

Inductive table : Type :=
| HourlyTable (df : DataFrame)
| DailyTable (df : DailyFrame).

Inductive file : Type :=
| JsonFile (payload : json)
| ParquetFile (t : table)
| CsvFile (t : table).

(** A computation that writes files and may raise: its result and the
    files written, oldest first.  What was written before an exception
    stays written.  A write is taken to succeed, as it does for a file name
    that stays within a directory that exists ([portable], [creatable]). *)
Definition IO (A : Type) : Type := result A * list (string * file).

Definition ret {A} (a : A) : IO A := (Ok a, []).

Definition raise {A} (e : exn) : IO A := (Raise e, []).

Definition bind {A B} (m : IO A) (k : A -> IO B) : IO B :=
  match fst m with
  | Ok a => (fst (k a), snd m ++ snd (k a))
  | Raise e => (Raise e, snd m)
  end.

Definition lift {A} (r : result A) : IO A := (r, []).

Definition write_file (path : string) (f : file) : IO unit := (Ok tt, [(path, f)]).

Declare Scope io_scope.
Delimit Scope io_scope with io.
Notation "x <- m ;; k" := (bind m (fun x => k))
  (at level 61, m at next level, right associativity) : io_scope.

(** config.py *)
Record Location : Type := mkLocation {
  name : string;
  latitude : Q;
  longitude : Q;
  timezone : string
}.

Record Settings : Type := mkSettings {
  data_dir : string;
  reports_dir : string;
  default_start_date : string;
  default_end_date : string
}.

(** fetch_weather.py *)
Definition OPEN_METEO_ARCHIVE := "https://archive-api.open-meteo.com/v1/archive".
Definition OPEN_METEO_FORECAST := "https://api.open-meteo.com/v1/forecast".

Definition HOURLY_VARS : list string :=
  [ "temperature_2m"; "relative_humidity_2m"; "dew_point_2m";
    "apparent_temperature"; "precipitation"; "rain"; "snowfall";
    "cloudcover"; "pressure_msl"; "windspeed_10m"; "winddirection_10m" ].

Inductive param : Type :=
| PNum (q : Q)
| PStr (s : string).

(** The upstream API: the endpoint behind a URL and its query parameters. *)
Definition network : Type := string -> list (string * param) -> Http.endpoint.

Definition fetch_for_location (net : network) (lat lon : Q)
    (start_date end_date timezone : string) : result json :=
  let params :=
    [ ("latitude", PNum lat); ("longitude", PNum lon);
      ("start_date", PStr start_date); ("end_date", PStr end_date);
      ("hourly", PStr (join "," HOURLY_VARS)); ("timezone", PStr timezone) ] in
  fst (Http._get_json (net OPEN_METEO_ARCHIVE params) 0).

Definition fetch_forecast (net : network) (lat lon : Q) (timezone : string)
    : result json :=
  let params :=
    [ ("latitude", PNum lat); ("longitude", PNum lon);
      ("hourly", PStr (join "," HOURLY_VARS)); ("timezone", PStr timezone) ] in
  fst (Http._get_json (net OPEN_METEO_FORECAST params) 0).

(** [if start and end:] on [Optional[str]]. *)
Definition nonempty (s : option string) : bool :=
  match s with
  | Some s => negb (s =? EmptyString)
  | None => false
  end.

Definition text (s : option string) : string :=
  match s with
  | Some s => s
  | None => "None"
  end.

Definition raw_json_name (city kind : string) (start end_ : option string) : string :=
  let safe_city := replace_space (lower city) in
  if nonempty start && nonempty end_
  then safe_city ++ "__" ++ kind ++ "__" ++ text start ++ "__" ++ text end_ ++ ".json"
  else safe_city ++ "__" ++ kind ++ ".json".

Definition save_raw_json (payload : json) (raw_dir city kind : string)
    (start end_ : option string) : IO string :=
  let path := os_path_join raw_dir (raw_json_name city kind start end_) in
  (_ <- write_file path (JsonFile payload) ;;
   ret path)%io.

(** process_weather.py, analyze_weather.py *)
Definition save_parquet (t : table) (out_path : string) : IO unit :=
  write_file out_path (ParquetFile t).

Definition save_csv (t : table) (out_path : string) : IO unit :=
  write_file out_path (CsvFile t).

Section Run.

Variable coerce_datetime : list json -> json -> option Z.

(** run_pipeline.py *)
Definition _worker_fetch_city (net : network) (loc : Location)
    (start end_ raw_dir : string) : IO (option DataFrame) :=
  (archive <- lift (fetch_for_location net (latitude loc) (longitude loc)
                      start end_ (timezone loc)) ;;
   forecast <- lift (fetch_forecast net (latitude loc) (longitude loc)
                       (timezone loc)) ;;
   _ <- save_raw_json archive raw_dir (name loc) "archive" (Some start) (Some end_) ;;
   _ <- save_raw_json forecast raw_dir (name loc) "forecast" (Some start) (Some end_) ;;
   hourly <- lift (combine_hourly coerce_datetime archive forecast (name loc)) ;;
   if empty hourly then ret None else ret (Some hourly))%io.

(** dask's [compute] over the tasks ([scheduler="threads"]): every task's result, in the
    order of the tasks; an exception of a task is raised to the caller.
    The tasks share no state, so the results do not depend on how the four
    pool threads interleave; the model runs them one after the other. *)
Fixpoint compute {A} (tasks : list (IO A)) : IO (list A) :=
  match tasks with
  | [] => ret []
  | t :: rest =>
      (a <- t ;;
       others <- compute rest ;;
       ret (a :: others))%io
  end.

(** [x or default]. *)
Definition or_default (x : option string) (default : string) : string :=
  if nonempty x then text x else default.

Fixpoint not_none {A} (results : list (option A)) : list A :=
  match results with
  | [] => []
  | Some a :: rest => a :: not_none rest
  | None :: rest => not_none rest
  end.

(** The merge of the per-location tables (lines 87-91). *)
Definition merge_hourly (all_hourly : list DataFrame) : result DataFrame :=
  (out <- concat all_hourly ;;
   sort_values_city_time out)%result.

(** [run_pipeline] up to the CSV twins; the plots and the optional upload
    that follow read the two tables and do not touch them. *)
Definition run_pipeline (settings : Settings) (locations : list Location)
    (net : network) (start end_ : option string) : IO unit :=
  let start := or_default start (default_start_date settings) in
  let end_ := or_default end_ (default_end_date settings) in
  let raw_dir := os_path_join (data_dir settings) "raw" in
  let processed_dir := os_path_join (data_dir settings) "processed" in
  (results <- compute (map (fun loc => _worker_fetch_city net loc start end_ raw_dir)
                           locations) ;;
   let all_hourly := not_none results in
   match all_hourly with
   | [] => raise (SystemExit 1)
   | _ =>
       hourly_df <- lift (merge_hourly all_hourly) ;;
       _ <- save_parquet (HourlyTable hourly_df)
              (os_path_join processed_dir "hourly.parquet") ;;
       daily_df <- lift (summarize_daily hourly_df) ;;
       _ <- save_parquet (DailyTable daily_df)
              (os_path_join processed_dir "daily_summary.parquet") ;;
       _ <- save_csv (HourlyTable hourly_df) (os_path_join processed_dir "hourly.csv") ;;
       save_csv (DailyTable daily_df) (os_path_join processed_dir "daily_summary.csv")
   end)%io.

End Run.

(** The exit status of the process that ran the script. *)
Definition exit_status {A} (m : IO A) : Z :=
  match fst m with
  | Ok _ => 0
  | Raise (SystemExit code) => code
  | Raise _ => 1
  end.

(** Nothing but [sys.exit] raises [SystemExit]. *)
Definition ordinary {A} (r : result A) : Prop :=
  match r with
  | Raise (SystemExit _) => False
  | _ => True
  end.

(** A task that raised, or returned [None]. *)
Definition empty_or_failed {A} (m : IO (option A)) : Prop :=
  match fst m with
  | Ok (Some _) => False
  | _ => True
  end.

(** The files a run wrote that hold a processed table. *)
Definition is_table (f : file) : bool :=
  match f with
  | JsonFile _ => false
  | ParquetFile _ => true
  | CsvFile _ => true
  end.

Definition tables_written {A} (m : IO A) : list (string * file) :=
  filter (fun pf => is_table (snd pf)) (snd m).

(** The hourly tables a run saved as parquet. *)
Definition hourly_written {A} (m : IO A) : list DataFrame :=
  flat_map (fun pf => match snd pf with
                      | ParquetFile (HourlyTable df) => [df]
                      | _ => []
                      end) (snd m).

(** analyze_weather.py: the columns [plot_timeseries] draws, in the order
    of its loop (the titles only label the figures). *)
Definition PLOT_COLUMNS : list string :=
  [ "temperature_2m"; "relative_humidity_2m"; "precipitation"; "windspeed_10m" ].

Definition plot_name (city col : string) : string :=
  lower (replace_space city) ++ "_" ++ col ++ ".png".

(** The loop over the columns: a column the frame has is drawn against
    [time] ([px.line] raises [ValueError] for a frame without that column)
    and its image written; the rendering engine is taken to work. *)
Fixpoint plot_columns (df_city : DataFrame) (city out_dir : string)
    (cols : list string) : result (list string) :=
  match cols with
  | [] => Ok []
  | col :: rest =>
      if has_column df_city col then
        if has_column df_city "time" then
          (outputs <- plot_columns df_city city out_dir rest ;;
           Ok (os_path_join out_dir (plot_name city col) :: outputs))%result
        else Raise ValueError
      else plot_columns df_city city out_dir rest
  end.

(** [plot_timeseries]: the paths of the images written. *)
Definition plot_timeseries (hourly : DataFrame) (city out_dir : string)
    : result (list string) :=
  if negb (has_column hourly "city") then Raise (KeyError "city")
  else
    let df_city :=
      mkFrame (columns hourly)
              (filter (fun r => Pandas.city r =? city) (rows hourly)) in
    if empty df_city then Ok []
    else plot_columns df_city city out_dir PLOT_COLUMNS.

End Pipeline.

(** ** upload_cloud.py *)

Module Upload.

(** [s.lstrip("/")] and [s.rstrip("/")]. *)
Fixpoint lstrip_sep (s : string) : string :=
  match s with
  | EmptyString => EmptyString
  | String c rest => if Ascii.eqb c "/"%char then lstrip_sep rest else s
  end.

Fixpoint rstrip_sep (s : string) : string :=
  match s with
  | EmptyString => EmptyString
  | String c rest =>
      match rstrip_sep rest with
      | EmptyString =>
          if Ascii.eqb c "/"%char then EmptyString else String c EmptyString
      | kept => String c kept
      end
  end.

(** [s.replace(backslash, "/")]. *)
Fixpoint replace_backslash (s : string) : string :=
  match s with
  | EmptyString => EmptyString
  | String c rest =>
      String (if Ascii.eqb c (ascii_of_nat 92) then "/"%char else c)
             (replace_backslash rest)
  end.

Fixpoint has_sep (s : string) : bool :=
  match s with
  | EmptyString => false
  | String c rest => Ascii.eqb c "/"%char || has_sep rest
  end.

(** [os.path.basename(p)]: what follows the last slash. *)
Fixpoint basename (p : string) : string :=
  match p with
  | EmptyString => EmptyString
  | String c rest =>
      if has_sep rest then basename rest
      else if Ascii.eqb c "/"%char then rest else p
  end.

(** [f"{prefix.rstrip('/')}/{rel}".lstrip("/")]. *)
Definition s3_key (prefix rel : string) : string :=
  lstrip_sep (rstrip_sep prefix ++ "/" ++ rel).

Definition s3_uri (bucket key : string) : string :=
  "s3://" ++ bucket ++ "/" ++ key.

(** What [local_path] is on disk: nothing, a file, or a directory with the
    files [os.walk] finds below it, each as [os.path.relpath] gives it. *)
Inductive entry : Type :=
| Absent
| RegularFile
| Directory (files : list string).

(** The uploads of one call, in order: [upload_file bucket key] tells
    whether the transfer of that object succeeds; a failed transfer raises
    out of [upload_path_to_s3], which is [None] here. *)
Fixpoint upload_keys (upload_file : string -> string -> bool) (bucket : string)
    (keys : list string) : option (list string) :=
  match keys with
  | [] => Some []
  | key :: rest =>
      if upload_file bucket key then
        match upload_keys upload_file bucket rest with
        | Some uploaded => Some (s3_uri bucket key :: uploaded)
        | None => None
        end
      else None
  end.

Definition upload_path_to_s3 (on_disk : entry)
    (upload_file : string -> string -> bool)
    (local_path bucket prefix : string) : option (list string) :=
  match on_disk with
  | Absent => Some []
  | Directory files =>
      upload_keys upload_file bucket
        (map (fun rel => s3_key prefix (replace_backslash rel)) files)
  | RegularFile =>
      upload_keys upload_file bucket [s3_key prefix (basename local_path)]
  end.

End Upload.

(** ** Example payloads and runs *)

Module Samples.
Import Pandas Pipeline.

Definition num (z : Z) : json := JNum (inject_Z z).

(** A response of the API: [time], [temperature_2m] and the other hourly
    variables, which are all 0 here. *)
Definition api_payload (times : list string) (temps : list json) : json :=
  JObj [ ("latitude", num 30);
         ("hourly",
          JObj (("time", JArr (map JStr times))
                :: ("temperature_2m", JArr temps)
                :: map (fun v => (v, JArr (repeat (num 0) (List.length times))))
                       (tl HOURLY_VARS))) ].

(** Archive and forecast overlap at 01:00 and disagree there. *)
Definition archive_austin : json :=
  api_payload ["2024-10-02T00:00"; "2024-10-02T01:00"] [num 10; num 11].

Definition forecast_austin : json :=
  api_payload ["2024-10-02T01:00"; "2024-10-02T02:00"] [num 99; num 12].

Definition frame_of (r : result DataFrame) : DataFrame :=
  match r with
  | Ok df => df
  | Raise _ => empty_frame
  end.

Definition t_0000 : option Z := Iso8601.parse "2024-10-02T00:00".
Definition t_0100 : option Z := Iso8601.parse "2024-10-02T01:00".

Definition hourly_row (t : string) (temp : json) : Row :=
  mkRow (Iso8601.parse t) "Austin"
        (("temperature_2m", temp) :: map (fun v => (v, num 0)) (tl HOURLY_VARS)).

(** The two rows for 01:00: the archive measured 11, the forecast said 99. *)
Definition archive_0100 : Row := hourly_row "2024-10-02T01:00" (num 11).
Definition forecast_0100 : Row := hourly_row "2024-10-02T01:00" (num 99).

(** A second timestamp that does not parse, and a field the pipeline does
    not know. *)
Definition odd_fields : list (string * json) :=
  [ ("time", JArr [JStr "2024-10-02T00:00"; JStr "not a time"]);
    ("temperature_2m", JArr [num 10; JNull]);
    ("uv_index", JArr [num 1; num 2]) ].

Definition odd_payload : json := JObj [("hourly", JObj odd_fields)].

(** Two temperatures for one timestamp. *)
Definition ragged_payload : json :=
  JObj [("hourly", JObj [ ("time", JArr [JStr "2024-10-01T00:00"]);
                          ("temperature_2m", JArr [num 1; num 2]) ])].

(** The archive's hourly block without its [time] field. *)
Definition untimed_payload : json :=
  JObj [("hourly", JObj [ ("temperature_2m", JArr [num 10; num 11]);
                          ("rain", JArr [num 0; num 1]) ])].

(** A response without an hourly block. *)
Definition no_hourly : json := JObj [("latitude", num 30)].

(** An hourly block that is a list. *)
Definition listed_payload : json := JObj [("hourly", JArr [num 1])].

(** One city, one day, temperatures 10, 20, null, 30. *)
Definition day_payload : json :=
  api_payload ["2024-10-02T00:00"; "2024-10-02T01:00";
               "2024-10-02T02:00"; "2024-10-02T03:00"]
              [num 10; num 20; JNull; num 30].

Definition day_frame : DataFrame :=
  frame_of (_hourly_to_df Iso8601.coerce day_payload "Austin").

Definition odd_frame : DataFrame :=
  frame_of (_hourly_to_df Iso8601.coerce odd_payload "Austin").

(** Two hours of two days and an hour whose timestamp does not parse. *)
Definition gappy_payload : json :=
  api_payload ["2024-10-03T00:00"; "later"; "2024-10-02T23:00"]
              [num 10; num 99; num 30].

Definition gappy_frame : DataFrame :=
  frame_of (_hourly_to_df Iso8601.coerce gappy_payload "Austin").

Definition daily_of (df : DataFrame) : DailyFrame :=
  match summarize_daily df with
  | Ok daily => daily
  | Raise _ => mkDailyFrame [] []
  end.

(** A run: settings, two locations, and what the API answers. *)
Definition settings : Settings :=
  mkSettings "./data" "./reports" "2024-10-01" "2024-10-07".

Definition austin : Location := mkLocation "Austin" (3027 # 100) (-9774 # 100) "UTC".
Definition berlin : Location := mkLocation "Berlin" (5252 # 100) (1340 # 100) "UTC".

Definition serve (body : json) : Http.endpoint :=
  Http.scripted [] (Http.http 200 (Some body)).

Definition down : Http.endpoint := Http.scripted [] Http.ConnectFail.

Definition asks_for (loc : Location) (params : list (string * param)) : bool :=
  match assoc "latitude" params with
  | Some (PNum q) => Qeq_bool q (latitude loc)
  | _ => false
  end.

(** No hourly data for Austin; Berlin's forecast endpoint is down. *)
Definition no_data : json :=
  JObj [("latitude", num 30); ("hourly", JObj [("time", JArr [])])].

Definition net_all_fail : network :=
  fun url params =>
    if asks_for austin params then serve no_data
    else if url =? OPEN_METEO_FORECAST then down
    else serve no_data.

(** Austin as above; Berlin with one archive hour and no forecast hours. *)
Definition archive_berlin : json :=
  api_payload ["2024-10-02T00:00"] [num 7].

Definition austin_table : DataFrame :=
  frame_of (combine_hourly Iso8601.coerce archive_austin forecast_austin "Austin").


(** A second location called Austin, with one later hour. *)
Definition austin_north : Location :=
  mkLocation "Austin" (3100 # 100) (-9774 # 100) "UTC".

Definition archive_north : json :=
  api_payload ["2024-10-03T00:00"] [num 5].

Definition net_same_name : network :=
  fun url params =>
    if asks_for austin params
    then serve (if url =? OPEN_METEO_ARCHIVE then archive_austin else forecast_austin)
    else serve (if url =? OPEN_METEO_ARCHIVE then archive_north else no_data).

Definition same_name_run : IO unit :=
  run_pipeline Iso8601.coerce settings [austin; austin_north] net_same_name None None.

Definition net_ok : network :=
  fun url params =>
    if asks_for austin params
    then serve (if url =? OPEN_METEO_ARCHIVE then archive_austin else forecast_austin)
    else serve (if url =? OPEN_METEO_ARCHIVE then archive_berlin else no_data).

(** Austin answers; Berlin's forecast endpoint is down. *)
Definition net_partial : network :=
  fun url params =>
    if asks_for austin params
    then serve (if url =? OPEN_METEO_ARCHIVE then archive_austin else forecast_austin)
    else if url =? OPEN_METEO_FORECAST then down
    else serve archive_berlin.

(** One location whose payload has no humidity column. *)
Definition net_odd : network := fun url params => serve odd_payload.

Definition ok_run : IO unit :=
  run_pipeline Iso8601.coerce settings [austin; berlin] net_ok None None.

Definition ok_hourly : DataFrame := hd empty_frame (hourly_written ok_run).

End Samples.

(** * Properties *)

(** ** The HTTP client *)

Module HttpFacts.
Import Http.

(** A response whose status is outside [status_forcelist] is handed back
    by the session after that one request. *)
Lemma session_get_passes (ep : endpoint) (n : nat) (r : Response) :
  ep n = Answer r ->
  is_retry (status_forcelist session_retry) r = false ->
  session_get ep n = (Ok r, S n).
Proof.
  intros Hep Hno. unfold session_get. cbn [session_retry total connect read status].
  cbn [urlopen]. rewrite Hep, Hno. reflexivity.
Qed.

Lemma session_get_retries (ep : endpoint) (n : nat) (r : Response) :
  ep n = Answer r -> status_code r = 429%Z ->
  forall total connect read status,
    urlopen (S total) connect read (S status)
      (status_forcelist session_retry) ep n
    = urlopen total connect read status
        (status_forcelist session_retry) ep (S n).
Proof.
  intros Hep H429 total connect read status. cbn [urlopen]. rewrite Hep.
  unfold is_retry. rewrite H429. reflexivity.
Qed.

(** The session leaves a 4xx other than 429 alone, unless it is a 413
    that carries [Retry-After]. *)
Lemma client_error_not_forced (r : Response) :
  (400 <= status_code r < 500)%Z -> status_code r <> 429%Z ->
  retry_after r = false \/ status_code r <> 413%Z ->
  is_retry (status_forcelist session_retry) r = false.
Proof.
  intros Hr Hne Hra. unfold is_retry, RETRY_AFTER_STATUS_CODES. simpl.
  repeat match goal with
  | |- context [(status_code r =? ?k)%Z] =>
      destruct (Z.eqb_spec (status_code r) k); [lia || (destruct Hra as [->|]; [|contradiction])|]
  end; simpl; rewrite ?andb_false_r; reflexivity.
Qed.

Lemma client_error_raises (r : Response) :
  (400 <= status_code r < 500)%Z ->
  raise_for_status r = Raise (HTTPError (status_code r)).
Proof.
  intros Hr. unfold raise_for_status.
  destruct (Z.leb_spec 400 (status_code r)); [|lia].
  destruct (Z.ltb_spec (status_code r) 600); [|lia].
  reflexivity.
Qed.

(** A response that the session does not retry is not a 429. *)
Lemma not_retried_not_429 (r : Response) :
  is_retry (status_forcelist session_retry) r = false ->
  (status_code r =? 429)%Z = false.
Proof.
  unfold is_retry. cbn [session_retry status_forcelist existsb].
  destruct (status_code r =? 429)%Z; [discriminate|reflexivity].
Qed.

(** One turn of the loop, before the last attempt, on a 4xx that the
    session handed back: the error is caught and the loop goes on. *)
Lemma loop_retries_client_error (attempt : nat) (rest : list nat)
    (last : option Response) (ep : endpoint) (n : nat) (r : Response) :
  ep n = Answer r ->
  (400 <= status_code r < 500)%Z ->
  is_retry (status_forcelist session_retry) r = false ->
  attempt < 7 ->
  _get_json_loop (attempt :: rest) last ep n
  = _get_json_loop rest (Some r) ep (S n).
Proof.
  intros Hep Hr Hno Hlt. cbn [_get_json_loop].
  rewrite (session_get_passes ep n r Hep Hno), (not_retried_not_429 r Hno).
  rewrite (client_error_raises r Hr).
  destruct (Nat.leb_spec 7 attempt); [lia|]. reflexivity.
Qed.

(** C3 (as amended): a 4xx status that the session does not retry itself
    (any 4xx other than 429; a 413 only without [Retry-After]) is not
    propagated after one response.  [_get_json] catches the [HTTPError] and
    asks again; when each of the seven attempts is answered by such a
    status, it raises the [HTTPError] of the seventh response, after
    exactly seven requests. *)
Theorem get_json_retries_client_errors (ep : endpoint) :
  (forall k, k < 7 ->
     exists r, ep k = Answer r /\
               (400 <= status_code r < 500)%Z /\
               is_retry (status_forcelist session_retry) r = false) ->
  exists r7, ep 6 = Answer r7 /\
             _get_json ep 0 = (Raise (HTTPError (status_code r7)), 7).
Proof.
  intros H.
  destruct (H 0) as (r0 & E0 & R0 & N0); [lia|].
  destruct (H 1) as (r1 & E1 & R1 & N1); [lia|].
  destruct (H 2) as (r2 & E2 & R2 & N2); [lia|].
  destruct (H 3) as (r3 & E3 & R3 & N3); [lia|].
  destruct (H 4) as (r4 & E4 & R4 & N4); [lia|].
  destruct (H 5) as (r5 & E5 & R5 & N5); [lia|].
  destruct (H 6) as (r6 & E6 & R6 & N6); [lia|].
  exists r6. split; [exact E6|].
  unfold _get_json. cbn [seq].
  rewrite (loop_retries_client_error 1 _ _ ep 0 r0 E0 R0 N0) by lia.
  rewrite (loop_retries_client_error 2 _ _ ep 1 r1 E1 R1 N1) by lia.
  rewrite (loop_retries_client_error 3 _ _ ep 2 r2 E2 R2 N2) by lia.
  rewrite (loop_retries_client_error 4 _ _ ep 3 r3 E3 R3 N3) by lia.
  rewrite (loop_retries_client_error 5 _ _ ep 4 r4 E4 R4 N4) by lia.
  rewrite (loop_retries_client_error 6 _ _ ep 5 r5 E5 R5 N5) by lia.
  cbn [_get_json_loop].
  rewrite (session_get_passes ep 6 r6 E6 N6), (not_retried_not_429 r6 N6).
  rewrite (client_error_raises r6 R6). reflexivity.
Qed.

Lemma get_json_retries_client_errors_witness :
  exists r7, always_404 6 = Answer r7 /\
             _get_json always_404 0 = (Raise (HTTPError (status_code r7)), 7).
Proof.
  apply (get_json_retries_client_errors always_404).
  intros k _. exists (mkResponse 404 false None). unfold always_404, scripted, http.
  split; [destruct k as [|[|[|[|[|[|[|k]]]]]]]; reflexivity|].
  split; [simpl; lia|reflexivity].
Defined.

(** C3, as stated, fails: against an endpoint that answers 404 every time
    [_get_json] makes seven requests, not one; and when a 404 is followed
    by a 200 the 404 is not propagated at all. *)
Lemma get_json_404_is_retried :
  _get_json always_404 0 = (Raise (HTTPError 404), 7) /\
  _get_json once_404_then_200 0 = (Ok sample_body, 2).
Proof. split; reflexivity. Qed.

(** C4: 429 on the first three requests and 200 with a JSON body on the
    fourth: [_get_json] returns that body, and the endpoint has then seen
    exactly four requests.  (The three 429 are absorbed by the session's
    [Retry]; the loop of [_get_json] sees the 200 on its first attempt.) *)
Theorem get_json_three_429_then_200 (ep : endpoint) (j : json)
    (r0 r1 r2 r3 : Response) :
  ep 0 = Answer r0 -> status_code r0 = 429%Z ->
  ep 1 = Answer r1 -> status_code r1 = 429%Z ->
  ep 2 = Answer r2 -> status_code r2 = 429%Z ->
  ep 3 = Answer r3 -> status_code r3 = 200%Z -> body r3 = Some j ->
  _get_json ep 0 = (Ok j, 4) /\ session_get ep 0 = (Ok r3, 4).
Proof.
  intros E0 S0 E1 S1 E2 S2 E3 S3 B3.
  assert (session_get ep 0 = (Ok r3, 4)) as Hget.
  { unfold session_get. cbn [session_retry total connect read status].
    rewrite (session_get_retries ep 0 r0 E0 S0).
    rewrite (session_get_retries ep 1 r1 E1 S1).
    rewrite (session_get_retries ep 2 r2 E2 S2).
    cbn [urlopen]. rewrite E3. unfold is_retry, RETRY_AFTER_STATUS_CODES.
    rewrite S3. cbn. now rewrite andb_false_r. }
  split; [|exact Hget].
  unfold _get_json. cbn [seq _get_json_loop]. rewrite Hget.
  unfold raise_for_status, resp_json. rewrite S3, B3. reflexivity.
Qed.

Lemma get_json_three_429_then_200_witness :
  _get_json rate_limited_thrice 0 = (Ok sample_body, 4) /\
  session_get rate_limited_thrice 0
  = (Ok (mkResponse 200 false (Some sample_body)), 4).
Proof.
  apply (get_json_three_429_then_200 rate_limited_thrice sample_body
           (mkResponse 429 false None) (mkResponse 429 false None)
           (mkResponse 429 false None) (mkResponse 200 false (Some sample_body)));
    reflexivity.
Defined.

End HttpFacts.

(** ** Sorting and duplicates *)

Module FrameFacts.
Import Pandas.

Section Sorting.

Context {A : Type} (leb : A -> A -> bool).

Hypothesis leb_total : forall a b, leb a b = true \/ leb b a = true.

Lemma insert_sorted_perm (x : A) (l : list A) :
  Permutation (insert_sorted leb x l) (x :: l).
Proof.
  induction l as [|y l IH]; simpl.
  - apply Permutation_refl.
  - destruct (leb x y).
    + apply Permutation_refl.
    + apply Permutation_trans with (y :: x :: l).
      * apply perm_skip, IH.
      * apply perm_swap.
Qed.

Lemma sort_rows_perm (l : list A) : Permutation (sort_rows leb l) l.
Proof.
  induction l as [|x l IH]; simpl.
  - apply perm_nil.
  - apply Permutation_trans with (x :: sort_rows leb l).
    + apply insert_sorted_perm.
    + apply perm_skip, IH.
Qed.




End Sorting.



(** The key comparison decides equality of keys. *)
Lemma key_eqb_eq (a b : key) : key_eqb a b = true <-> a = b.
Proof.
  destruct a as [ca ta], b as [cb tb]. unfold key_eqb. simpl.
  rewrite andb_true_iff, String.eqb_eq. split.
  - intros [-> H]. destruct ta, tb; try discriminate; [|reflexivity].
    apply Z.eqb_eq in H. now subst.
  - intros E. injection E as -> ->. split; [reflexivity|].
    destruct tb; [apply Z.eqb_refl|reflexivity].
Qed.

Lemma key_eqb_refl (a : key) : key_eqb a a = true.
Proof. now apply key_eqb_eq. Qed.

Lemma existsb_key_In (k : key) (seen : list key) :
  existsb (key_eqb k) seen = true <-> In k seen.
Proof.
  rewrite existsb_exists. split.
  - intros (x & Hin & E). apply key_eqb_eq in E. now subst.
  - intros Hin. exists k. split; [exact Hin|apply key_eqb_refl].
Qed.

(** What [drop_seen] keeps: under each key not seen before, the first row
    that carries it, and nothing else. *)
Lemma drop_seen_filter (k : key) (rs : list Row) : forall seen,
  filter (fun r => key_eqb (row_key r) k) (drop_seen seen rs)
  = if existsb (key_eqb k) seen then []
    else match find (fun r => key_eqb (row_key r) k) rs with
         | Some r => [r]
         | None => []
         end.
Proof.
  induction rs as [|r rs IH]; intros seen; simpl.
  - now destruct (existsb (key_eqb k) seen).
  - destruct (existsb (key_eqb (row_key r)) seen) eqn:Hseen.
    + rewrite IH. destruct (existsb (key_eqb k) seen) eqn:Hk; [reflexivity|].
      destruct (key_eqb (row_key r) k) eqn:E; [|reflexivity].
      apply key_eqb_eq in E. congruence.
    + simpl. rewrite IH. simpl.
      destruct (key_eqb (row_key r) k) eqn:E.
      * apply key_eqb_eq in E. subst k. rewrite key_eqb_refl, Hseen. reflexivity.
      * assert (key_eqb k (row_key r) = false) as ->.
        { destruct (key_eqb k (row_key r)) eqn:E'; [|reflexivity].
          apply key_eqb_eq in E'. subst k. now rewrite key_eqb_refl in E. }
        reflexivity.
Qed.

Lemma drop_seen_incl (rs : list Row) : forall seen r,
  In r (drop_seen seen rs) -> In r rs /\ ~ In (row_key r) seen.
Proof.
  induction rs as [|x rs IH]; intros seen r; simpl; [tauto|].
  destruct (existsb (key_eqb (row_key x)) seen) eqn:Hseen.
  - intros H. destruct (IH _ _ H). tauto.
  - intros [<-|H].
    + split; [now left|]. intros Hin. apply existsb_key_In in Hin. congruence.
    + destruct (IH _ _ H) as [H1 H2]. split; [now right|].
      intros Hin. apply H2. now right.
Qed.

Lemma drop_seen_NoDup (rs : list Row) : forall seen,
  NoDup (map row_key (drop_seen seen rs)).
Proof.
  induction rs as [|x rs IH]; intros seen; simpl; [constructor|].
  destruct (existsb (key_eqb (row_key x)) seen); [apply IH|].
  simpl. constructor; [|apply IH].
  intros Hin. apply in_map_iff in Hin as (r & E & Hr).
  apply drop_seen_incl in Hr as [_ Hr]. apply Hr. rewrite E. now left.
Qed.

(** A row survives [drop_seen []] exactly when an equal-keyed row was
    there: no key is lost. *)
Lemma drop_seen_keeps_keys (rs : list Row) : forall seen k,
  In k (map row_key rs) -> ~ In k seen -> In k (map row_key (drop_seen seen rs)).
Proof.
  induction rs as [|x rs IH]; intros seen k; simpl; [tauto|].
  intros Hin Hns.
  destruct (existsb (key_eqb (row_key x)) seen) eqn:Hseen.
  - destruct Hin as [E|Hin]; [|now apply IH].
    subst k. apply existsb_key_In in Hseen. contradiction.
  - simpl. destruct Hin as [E|Hin]; [now left|].
    destruct (key_eqb (row_key x) k) eqn:E.
    + apply key_eqb_eq in E. now left.
    + right. apply IH; [exact Hin|]. intros [E'|H]; [|contradiction].
      subst k. now rewrite key_eqb_refl in E.
Qed.

Lemma filter_perm {A} (p : A -> bool) (l l' : list A) :
  Permutation l l' -> Permutation (filter p l) (filter p l').
Proof.
  induction 1 as [|x l l' _ IH|x y l|l l' l'' _ IH1 _ IH2]; simpl.
  - constructor.
  - destruct (p x); [now constructor|exact IH].
  - destruct (p x), (p y); try apply Permutation_refl. apply perm_swap.
  - now apply Permutation_trans with (filter p l').
Qed.

(** *** What [_hourly_to_df] returns *)

Section Combine.

Variable dt : list json -> json -> option Z.

Lemma hourly_to_df_shape (raw : json) (c : string) (df : DataFrame) :
  _hourly_to_df dt raw c = Ok df ->
  df = empty_frame \/ exists cs, df = with_city cs c.
Proof.
  unfold _hourly_to_df, rbind.
  destruct (dict_get raw "hourly" (JObj [])) as [hourly|]; [|discriminate].
  destruct (negb (truthy hourly)).
  - intros E. injection E as <-. now left.
  - destruct (dict_get hourly "time" (JArr [])) as [tc|]; [|discriminate].
    destruct (time_frame dt tc) as [d0|]; [|discriminate].
    destruct (assign_columns _ d0) as [d1|]; [|discriminate].
    intros E. injection E as <-. right. now exists d1.
Qed.

Lemma with_city_rows (cs : Columns) (c : string) (r : Row) :
  In r (rows (with_city cs c)) -> city r = c.
Proof.
  simpl. intros H. apply in_map_iff in H as (i & <- & _). reflexivity.
Qed.

Lemma put_has_key (k : string) (vs : list json) (l : list (string * list json)) :
  existsb (String.eqb k) (map fst (put k vs l)) = true.
Proof.
  induction l as [|[k' old] l IH]; simpl.
  - now rewrite String.eqb_refl.
  - destruct (k' =? k) eqn:E; simpl.
    + rewrite String.eqb_sym, E. reflexivity.
    + rewrite IH. apply orb_true_r.
Qed.

Lemma with_city_columns (cs : Columns) (c : string) :
  has_column (with_city cs c) "time" = true /\
  has_column (with_city cs c) "city" = true.
Proof.
  unfold has_column. split; [reflexivity|].
  cbn [with_city columns existsb]. rewrite put_has_key. apply orb_true_r.
Qed.

Lemma hourly_to_df_city (raw : json) (c : string) (df : DataFrame) :
  _hourly_to_df dt raw c = Ok df -> Forall (fun r => city r = c) (rows df).
Proof.
  intros H. apply hourly_to_df_shape in H as [->|(cs & ->)].
  - constructor.
  - apply Forall_forall. intros r. apply with_city_rows.
Qed.

Lemma hourly_to_df_columns (raw : json) (c : string) (df : DataFrame) :
  _hourly_to_df dt raw c = Ok df -> rows df <> [] ->
  has_column df "time" = true /\ has_column df "city" = true.
Proof.
  intros H Hne. apply hourly_to_df_shape in H as [->|(cs & ->)].
  - now elim Hne.
  - apply with_city_columns.
Qed.

(** *** [concat], [drop_duplicates], [sort_values] in a row *)

Lemma union_columns_has (c : string) (names : list string) : forall seen,
  existsb (String.eqb c) seen = false ->
  existsb (String.eqb c) names = true ->
  existsb (String.eqb c) (union_columns seen names) = true.
Proof.
  induction names as [|x names IH]; intros seen Hseen; simpl; [discriminate|].
  destruct (c =? x) eqn:E; simpl.
  - apply String.eqb_eq in E. subst x. rewrite Hseen. simpl.
    now rewrite String.eqb_refl.
  - intros Hin. destruct (existsb (String.eqb x) seen); [now apply IH|].
    simpl. rewrite E. simpl. apply IH; [|exact Hin].
    simpl. rewrite E. exact Hseen.
Qed.

Lemma concat_rows (dfs : list DataFrame) (out : DataFrame) :
  concat dfs = Ok out -> rows out = flat_map rows dfs.
Proof.
  destruct dfs; [discriminate|]. intros E. injection E as <-. reflexivity.
Qed.

Lemma concat_has_column (dfs : list DataFrame) (out d : DataFrame) (c : string) :
  concat dfs = Ok out -> In d dfs -> has_column d c = true ->
  has_column out c = true.
Proof.
  intros E Hin Hc. destruct dfs as [|d0 dfs]; [discriminate|].
  injection E as <-. unfold has_column. cbn [columns].
  apply union_columns_has; [reflexivity|].
  apply existsb_exists. exists c. split; [|apply String.eqb_refl].
  change (In c (flat_map columns (d0 :: dfs))).
  apply in_flat_map. exists d. split; [exact Hin|].
  unfold has_column in Hc. apply existsb_exists in Hc as (x & Hx & E).
  apply String.eqb_eq in E. now subst x.
Qed.

Lemma concat_total (dfs : list DataFrame) :
  dfs <> [] -> exists out, concat dfs = Ok out.
Proof. destruct dfs; [congruence|]. intros _. eexists. reflexivity. Qed.

Lemma dedup_sort_rows (cat out : DataFrame) :
  (d <- drop_duplicates_city_time cat ;; sort_values_time d)%result = Ok out ->
  rows out = sort_rows by_time (drop_seen [] (rows cat)) /\
  has_column out "time" = true.
Proof.
  unfold drop_duplicates_city_time, sort_values_time, rbind.
  destruct (empty cat) eqn:Hempty.
  - destruct (has_column cat "time") eqn:Ht; simpl; [|discriminate].
    intros E. injection E as <-. split; [|exact Ht]. cbn [rows].
    unfold empty in Hempty. unfold has_column in Ht.
    destruct (columns cat); [discriminate|].
    destruct (rows cat); [reflexivity|discriminate].
  - destruct (has_column cat "city"); simpl; [|discriminate].
    destruct (has_column cat "time") eqn:Ht; simpl; [|discriminate].
    unfold has_column at 1. cbn [columns]. fold (has_column cat "time").
    rewrite Ht. simpl. intros E. injection E as <-. now split.
Qed.

Lemma dedup_sort_total (cat : DataFrame) :
  has_column cat "time" = true -> has_column cat "city" = true ->
  exists out,
    (d <- drop_duplicates_city_time cat ;; sort_values_time d)%result = Ok out.
Proof.
  intros Ht Hc. unfold drop_duplicates_city_time, sort_values_time, rbind.
  destruct (empty cat).
  - rewrite Ht. simpl. eexists. reflexivity.
  - rewrite Hc, Ht. simpl. unfold has_column at 1. cbn [columns].
    fold (has_column cat "time"). rewrite Ht. simpl. eexists. reflexivity.
Qed.

(** Every table [combine_hourly] returns is the sorted, deduplicated
    concatenation of frames that [_hourly_to_df] built for that city. *)
Lemma combine_hourly_rows (raw_archive raw_forecast : json) (c : string)
    (out : DataFrame) :
  combine_hourly dt raw_archive raw_forecast c = Ok out ->
  exists dfs,
    Forall (fun d => exists raw, _hourly_to_df dt raw c = Ok d) dfs /\
    rows out = sort_rows by_time (drop_seen [] (flat_map rows dfs)).
Proof.
  unfold combine_hourly, rbind.
  destruct (truthy raw_archive);
    [destruct (_hourly_to_df dt raw_archive c) as [da|] eqn:Ea; [|discriminate]|];
    (destruct (truthy raw_forecast);
     [destruct (_hourly_to_df dt raw_forecast c) as [df|] eqn:Ef; [|discriminate]|]);
    cbn [app]; intros H.
  - exists [da; df]. split; [repeat constructor; eauto|].
    apply (dedup_sort_rows (mkFrame _ _)) in H. apply H.
  - exists [da]. split; [repeat constructor; eauto|].
    apply (dedup_sort_rows (mkFrame _ _)) in H. apply H.
  - exists [df]. split; [repeat constructor; eauto|].
    apply (dedup_sort_rows (mkFrame _ _)) in H. apply H.
  - exists []. split; [constructor|]. injection H as <-. reflexivity.
Qed.


Lemma combine_hourly_city (raw_archive raw_forecast : json) (c : string)
    (out : DataFrame) :
  combine_hourly dt raw_archive raw_forecast c = Ok out ->
  Forall (fun r => city r = c) (rows out).
Proof.
  intros H. apply combine_hourly_rows in H as (dfs & Hdfs & ->).
  apply Forall_forall. intros r Hr.
  apply (Permutation_in _ (sort_rows_perm by_time _)) in Hr.
  apply drop_seen_incl in Hr as [Hr _].
  apply in_flat_map in Hr as (d & Hd & Hr).
  rewrite Forall_forall in Hdfs. destruct (Hdfs d Hd) as (raw & Hraw).
  apply hourly_to_df_city in Hraw. rewrite Forall_forall in Hraw. now apply Hraw.
Qed.

Lemma combine_hourly_NoDup (raw_archive raw_forecast : json) (c : string)
    (out : DataFrame) :
  combine_hourly dt raw_archive raw_forecast c = Ok out ->
  NoDup (map row_key (rows out)).
Proof.
  intros H. apply combine_hourly_rows in H as (dfs & _ & ->).
  apply (Permutation_NoDup (l := map row_key (drop_seen [] (flat_map rows dfs)))).
  - apply Permutation_map, Permutation_sym, sort_rows_perm.
  - apply drop_seen_NoDup.
Qed.

(** *** Payloads that [_hourly_to_df] accepts *)

Lemma map_nth_seq {A} (d : A) (l : list A) :
  map (fun i => nth i l d) (seq 0 (List.length l)) = l.
Proof.
  induction l as [|x l IH]; [reflexivity|].
  cbn [List.length seq map nth]. f_equal.
  rewrite <- seq_shift, map_map. exact IH.
Qed.

Lemma assign_columns_aligned (fields : list (string * json)) : forall df,
  aligned (nrows df) fields ->
  exists df', assign_columns fields df = Ok df' /\
              nrows df' = nrows df /\ times df' = times df.
Proof.
  induction fields as [|[k v] fields IH]; intros df Hal; cbn [assign_columns].
  - now exists df.
  - inversion Hal as [|? ? Hkv Hrest]; subst. cbn [fst snd] in Hkv.
    destruct (String.eqb_spec k "time") as [_|Hk]; [now apply IH|].
    destruct Hkv as [Hkv|(vs & -> & Hlen)]; [contradiction|].
    unfold setitem. rewrite Hlen, Nat.eqb_refl.
    destruct (IH (mkColumns (nrows df) (times df) (put k vs (cols df)) (labels df)) Hrest)
      as (df' & E & Hn & Ht).
    now exists df'.
Qed.

Lemma with_city_times (df : Columns) (c : string) :
  List.length (times df) = nrows df ->
  map time (rows (with_city df c)) = times df.
Proof.
  intros Hlen. cbn [with_city rows]. rewrite map_map. cbn [row_at time].
  rewrite <- Hlen. apply map_nth_seq.
Qed.

Lemma assign_columns_app (pre post : list (string * json)) (df : Columns) :
  assign_columns (pre ++ post) df
  = match assign_columns pre df with
    | Ok df' => assign_columns post df'
    | Raise e => Raise e
    end.
Proof.
  revert df. induction pre as [|[k v] pre IH]; intros df; cbn [app assign_columns].
  - reflexivity.
  - destruct (k =? "time"); [apply IH|].
    destruct (setitem df k v); [apply IH|reflexivity].
Qed.

(** With a [time] list that is not empty, the first list of another
    length stops the loop of [_hourly_to_df]. *)
Lemma hourly_to_df_first_ragged (members : list (string * json)) (c : string)
    (pre post : list (string * json)) (xs vs : list json) (k : string) :
  assoc "hourly" members = Some (JObj (pre ++ (k, JArr vs) :: post)) ->
  assoc "time" (pre ++ (k, JArr vs) :: post) = Some (JArr xs) ->
  xs <> [] ->
  aligned (List.length xs) pre ->
  k <> "time" ->
  List.length vs <> List.length xs ->
  _hourly_to_df dt (JObj members) c = Raise ValueError.
Proof.
  intros Hh Ht Hxs Hal Hk Hlen. unfold _hourly_to_df, rbind. cbn [dict_get].
  rewrite Hh. assert (truthy (JObj (pre ++ (k, JArr vs) :: post)) = true) as ->.
  { now destruct pre. }
  cbn [negb dict_get]. rewrite Ht. cbn [time_frame].
  rewrite assign_columns_app.
  destruct (assign_columns_aligned pre
              (mkColumns (List.length xs) (to_datetime dt xs) [] None) Hal)
    as (df' & -> & Hn & _).
  cbn [nrows] in Hn. cbn [assign_columns].
  destruct (String.eqb_spec k "time"); [contradiction|].
  unfold setitem. rewrite Hn.
  destruct (Nat.eqb_spec (List.length vs) (List.length xs)); [contradiction|].
  destruct (Nat.eqb_spec (List.length xs) 0) as [E|]; [|reflexivity].
  destruct xs; [contradiction|discriminate].
Qed.

(** C7 (as amended): [_hourly_to_df] does not raise on a payload without
    an hourly block, with an empty (falsy) one, or with one whose [time]
    is a list of strings or nulls and whose other fields, known or not, are
    lists of that same length: the first two give the frame without rows;
    the third gives one row per timestamp, an entry that does not parse
    being NaT in its row.  It is not total: a truthy hourly value that is
    not an object raises [AttributeError]; and when [time] is a non-empty
    list of strings or nulls, the first field whose list has another length
    raises [ValueError]. *)
Theorem hourly_to_df_accepts_aligned (members : list (string * json))
    (c : string) :
  (assoc "hourly" members = None ->
   _hourly_to_df dt (JObj members) c = Ok empty_frame) /\
  (forall hourly,
     assoc "hourly" members = Some hourly -> truthy hourly = false ->
     _hourly_to_df dt (JObj members) c = Ok empty_frame) /\
  (forall fields xs,
     assoc "hourly" members = Some (JObj fields) ->
     assoc "time" fields = Some (JArr xs) ->
     time_strings xs = true ->
     aligned (List.length xs) fields ->
     exists df,
       _hourly_to_df dt (JObj members) c = Ok df /\
       map time (rows df) = map (dt xs) xs /\
       Forall (fun r => city r = c) (rows df)) /\
  (forall hourly,
     assoc "hourly" members = Some hourly -> truthy hourly = true ->
     (forall fields, hourly <> JObj fields) ->
     _hourly_to_df dt (JObj members) c = Raise AttributeError) /\
  (forall pre k vs post xs,
     assoc "hourly" members = Some (JObj (pre ++ (k, JArr vs) :: post)) ->
     assoc "time" (pre ++ (k, JArr vs) :: post) = Some (JArr xs) ->
     time_strings xs = true -> xs <> [] ->
     aligned (List.length xs) pre -> k <> "time" ->
     List.length vs <> List.length xs ->
     _hourly_to_df dt (JObj members) c = Raise ValueError).
Proof.
  split; [|split; [|split; [|split]]];
    [| | | |intros pre k vs post xs Hh Ht _ Hxs Hal Hk Hlen;
            now apply (hourly_to_df_first_ragged members c pre post xs vs k)];
    unfold _hourly_to_df, rbind; cbn [dict_get].
  - intros ->. reflexivity.
  - intros hourly -> ->. reflexivity.
  - intros fields xs -> Htime _ Hal.
    assert (truthy (JObj fields) = true) as ->.
    { destruct fields; [discriminate|reflexivity]. }
    cbn [negb dict_get]. rewrite Htime. cbn [time_frame].
    destruct (assign_columns_aligned fields
                (mkColumns (List.length xs) (to_datetime dt xs) [] None) Hal)
      as (df' & -> & Hn & Ht).
    cbn [nrows times] in Hn, Ht.
    exists (with_city df' c). split; [reflexivity|split].
    + rewrite with_city_times; [exact Ht|].
      rewrite Ht, Hn. apply length_map.
    + apply Forall_forall. intros r. apply with_city_rows.
  - intros hourly -> -> Hshape. cbn [negb].
    destruct hourly; try reflexivity. now elim (Hshape members0).
Qed.

(** C1: archive and forecast both carry a row for [(city, t)], with
    whatever measurements: the combined table has exactly one row under
    that key, and it is the archive's (the first one seen, the archive
    frame being concatenated before the forecast frame); the forecast's row
    is dropped. *)
Theorem combine_hourly_first_seen_wins (raw_archive raw_forecast : json)
    (c : string) (a f : DataFrame) (t : option Z) (ra rf : Row) :
  truthy raw_archive = true -> truthy raw_forecast = true ->
  _hourly_to_df dt raw_archive c = Ok a ->
  _hourly_to_df dt raw_forecast c = Ok f ->
  find (fun r => key_eqb (row_key r) (c, t)) (rows a) = Some ra ->
  In rf (rows f) -> row_key rf = (c, t) ->
  exists out,
    combine_hourly dt raw_archive raw_forecast c = Ok out /\
    filter (fun r => key_eqb (row_key r) (c, t)) (rows out) = [ra] /\
    (rf <> ra -> ~ In rf (rows out)).
Proof.
  intros Ta Tf Ea Ef Hfind Hrf Krf.
  assert (rows a <> []) as Hne by (destruct (rows a); [discriminate|congruence]).
  destruct (hourly_to_df_columns _ _ _ Ea Hne) as [Ht Hc].
  destruct (concat_total [a; f]) as (cat & Ecat); [discriminate|].
  destruct (dedup_sort_total cat) as (out & Eout).
  { apply (concat_has_column _ _ a _ Ecat); [now left|exact Ht]. }
  { apply (concat_has_column _ _ a _ Ecat); [now left|exact Hc]. }
  assert (filter (fun r => key_eqb (row_key r) (c, t)) (rows out) = [ra]) as Hone.
  { destruct (dedup_sort_rows _ _ Eout) as [Hrows _].
    rewrite Hrows, (concat_rows _ _ Ecat).
    apply Permutation_length_1_inv, Permutation_sym.
    eapply Permutation_trans; [apply filter_perm, sort_rows_perm|].
    rewrite drop_seen_filter. cbn [existsb flat_map].
    rewrite app_nil_r.
    assert (find (fun r => key_eqb (row_key r) (c, t)) (rows a ++ rows f)
            = Some ra) as ->; [|apply Permutation_refl].
    clear - Hfind. induction (rows a) as [|x l IH]; [discriminate|].
    simpl in *. destruct (key_eqb (row_key x) (c, t)); [exact Hfind|now apply IH]. }
  exists out. split; [|split; [exact Hone|]].
  - unfold combine_hourly, rbind. rewrite Ta, Tf, Ea, Ef. cbn [app].
    rewrite Ecat. exact Eout.
  - intros Hneq Hin.
    assert (In rf (filter (fun r => key_eqb (row_key r) (c, t)) (rows out))) as H.
    { apply filter_In. split; [exact Hin|]. rewrite Krf. apply key_eqb_refl. }
    rewrite Hone in H. destruct H as [H|[]]. congruence.
Qed.

End Combine.

Lemma hourly_to_df_accepts_aligned_witness :
  exists df,
    _hourly_to_df Iso8601.coerce Samples.odd_payload "Austin" = Ok df /\
    map time (rows df) = [Samples.t_0000; None] /\
    Forall (fun r => city r = "Austin") (rows df).
Proof.
  apply (proj1 (proj2 (proj2 (hourly_to_df_accepts_aligned Iso8601.coerce
                                [("hourly", JObj Samples.odd_fields)] "Austin")))
           Samples.odd_fields [JStr "2024-10-02T00:00"; JStr "not a time"]);
    try reflexivity.
  unfold aligned, Samples.odd_fields.
  apply Forall_cons; [now left|].
  apply Forall_cons; [right; eexists; split; reflexivity|].
  apply Forall_cons; [right; eexists; split; reflexivity|].
  apply Forall_nil.
Defined.

(** C7, as stated, fails: a field with more entries than [time] makes
    [_hourly_to_df] raise [ValueError], and an hourly block that is not a
    dict makes it raise [AttributeError]. *)
Lemma hourly_to_df_raises :
  _hourly_to_df Iso8601.coerce Samples.ragged_payload "Austin" = Raise ValueError /\
  _hourly_to_df Iso8601.coerce Samples.listed_payload "Austin" = Raise AttributeError.
Proof. split; reflexivity. Qed.

(** When neither payload has an hourly block both frames are
    [pd.DataFrame()]; their concatenation has no [time] column and
    [sort_values] raises: the location fails, it does not come back empty. *)
Lemma combine_hourly_without_hourly :
  combine_hourly Iso8601.coerce Samples.no_hourly Samples.no_hourly "Austin"
  = Raise (KeyError "time").
Proof. reflexivity. Qed.

Lemma combine_hourly_first_seen_wins_witness :
  exists out,
    combine_hourly Iso8601.coerce Samples.archive_austin Samples.forecast_austin
      "Austin" = Ok out /\
    filter (fun r => key_eqb (row_key r) ("Austin", Samples.t_0100)) (rows out)
    = [Samples.archive_0100] /\
    (Samples.forecast_0100 <> Samples.archive_0100 ->
     ~ In Samples.forecast_0100 (rows out)).
Proof.
  apply (combine_hourly_first_seen_wins Iso8601.coerce
           Samples.archive_austin Samples.forecast_austin "Austin"
           (Samples.frame_of (_hourly_to_df Iso8601.coerce Samples.archive_austin "Austin"))
           (Samples.frame_of (_hourly_to_df Iso8601.coerce Samples.forecast_austin "Austin"))
           Samples.t_0100 Samples.archive_0100 Samples.forecast_0100);
    try (vm_compute; reflexivity).
  vm_compute. left. reflexivity.
Defined.

End FrameFacts.

(** ** The pipeline *)

Module PipelineFacts.
Import Pandas Pipeline FrameFacts.

Lemma bind_writes {A B} (m : IO A) (k : A -> IO B) :
  snd (bind m k)
  = snd m ++ match fst m with Ok a => snd (k a) | Raise _ => [] end.
Proof.
  unfold bind. destruct (fst m); simpl; [reflexivity|now rewrite app_nil_r].
Qed.

Lemma bind_result {A B} (m : IO A) (k : A -> IO B) :
  fst (bind m k) = match fst m with Ok a => fst (k a) | Raise e => Raise e end.
Proof. unfold bind. now destruct (fst m). Qed.

Lemma bind_Forall {A B} (P : string * file -> Prop) (m : IO A) (k : A -> IO B) :
  Forall P (snd m) -> (forall a, fst m = Ok a -> Forall P (snd (k a))) ->
  Forall P (snd (bind m k)).
Proof.
  intros Hm Hk. rewrite bind_writes. apply Forall_app. split; [exact Hm|].
  destruct (fst m); [now apply Hk|constructor].
Qed.

(** Run the result of a sequence of binds as far as it is known. *)
Ltac io_steps :=
  repeat (rewrite bind_result; cbn [lift write_file ret raise fst]).

(** *** No transport or pandas error is a [SystemExit] *)

Lemma urlopen_ordinary (forcelist : list Z) (ep : Http.endpoint) :
  forall total connect read status n,
    ordinary (fst (Http.urlopen total connect read status forcelist ep n)).
Proof.
  induction total as [|total IH]; intros connect read status n; cbn [Http.urlopen];
    destruct (ep n) as [r| |];
    try destruct (Http.is_retry forcelist r);
    try destruct status; try destruct connect; try destruct read;
    simpl; auto.
Qed.

Lemma get_json_loop_ordinary (ep : Http.endpoint) (attempts : list nat) :
  forall last n, ordinary (fst (Http._get_json_loop attempts last ep n)).
Proof.
  induction attempts as [|a attempts IH]; intros last n; cbn [Http._get_json_loop].
  - destruct last as [resp|]; simpl; [|exact I].
    unfold Http.raise_for_status, Http.resp_json.
    destruct (_ && _)%bool; simpl; [exact I|]. now destruct (Http.body resp).
  - pose proof (urlopen_ordinary (Http.status_forcelist Http.session_retry) ep
                  (Http.total Http.session_retry) (Http.connect Http.session_retry)
                  (Http.read Http.session_retry) (Http.status Http.session_retry) n) as Hs.
    fold (Http.session_get ep n) in Hs.
    destruct (Http.session_get ep n) as [[resp|e] n']; [|exact Hs].
    destruct (Http.status_code resp =? 429)%Z; [apply IH|].
    unfold Http.raise_for_status, Http.resp_json.
    destruct (_ && _)%bool.
    + destruct (7 <=? a)%nat; [exact I|apply IH].
    + simpl. now destruct (Http.body resp).
Qed.

Lemma get_json_ordinary (ep : Http.endpoint) (n : nat) :
  ordinary (fst (Http._get_json ep n)).
Proof. apply get_json_loop_ordinary. Qed.

Lemma assign_columns_ordinary (items : list (string * json)) :
  forall df, ordinary (assign_columns items df).
Proof.
  induction items as [|[k v] items IH]; intros df; simpl; [exact I|].
  destruct (k =? "time"); [apply IH|].
  destruct (setitem df k v) as [df'|e] eqn:E; [apply IH|].
  unfold setitem in E. destruct v; try discriminate.
  - destruct (_ =? _)%nat; [discriminate|].
    destruct (_ =? _)%nat; [discriminate|]. now injection E as <-.
  - destruct (_ && _); discriminate.
Qed.

Section Run.

Variable dt : list json -> json -> option Z.

Lemma hourly_to_df_ordinary (raw : json) (c : string) :
  ordinary (_hourly_to_df dt raw c).
Proof.
  unfold _hourly_to_df, rbind.
  destruct raw; simpl; try exact I.
  destruct (negb (truthy _)); [exact I|].
  destruct (match assoc "hourly" members with Some v => v | None => JObj [] end)
    as [| | | | |fields]; simpl; try exact I.
  destruct (match assoc "time" fields with Some v => v | None => JArr [] end);
    simpl; try exact I.
  pose proof (assign_columns_ordinary fields
                (mkColumns (List.length items) (to_datetime dt items) [] None)) as H.
  destruct (assign_columns fields _); [exact I|exact H].
Qed.

Lemma combine_hourly_ordinary (raw_archive raw_forecast : json) (c : string) :
  ordinary (combine_hourly dt raw_archive raw_forecast c).
Proof.
  unfold combine_hourly, rbind.
  pose proof (hourly_to_df_ordinary raw_archive c) as Ha.
  pose proof (hourly_to_df_ordinary raw_forecast c) as Hf.
  assert (forall cat, ordinary (match drop_duplicates_city_time cat with
                                | Ok d => sort_values_time d
                                | Raise e => Raise e
                                end)) as Hds.
  { intros cat. unfold drop_duplicates_city_time, sort_values_time.
    destruct (empty cat); [now destruct (negb _)|].
    destruct (negb (has_column cat "city")); [exact I|].
    destruct (negb (has_column cat "time")); [exact I|].
    now destruct (negb _). }
  destruct (truthy raw_archive);
    [destruct (_hourly_to_df dt raw_archive c); [|exact Ha]|];
    (destruct (truthy raw_forecast);
     [destruct (_hourly_to_df dt raw_forecast c); [|exact Hf]|]);
    cbn [app concat]; try apply Hds. exact I.
Qed.

(** *** The worker *)

Lemma worker_writes_json (net : network) (loc : Location) (s e raw : string) :
  Forall (fun pf => is_table (snd pf) = false)
         (snd (_worker_fetch_city dt net loc s e raw)).
Proof.
  unfold _worker_fetch_city, save_raw_json.
  repeat (apply bind_Forall; [try constructor|intros ? _]);
    try (repeat constructor; fail).
  destruct (empty _); constructor.
Qed.

Lemma worker_ordinary (net : network) (loc : Location) (s e raw : string) :
  ordinary (fst (_worker_fetch_city dt net loc s e raw)).
Proof.
  unfold _worker_fetch_city, save_raw_json. io_steps.
  pose proof (get_json_ordinary
    (net OPEN_METEO_ARCHIVE
       [("latitude", PNum (latitude loc)); ("longitude", PNum (longitude loc));
        ("start_date", PStr s); ("end_date", PStr e);
        ("hourly", PStr (join "," HOURLY_VARS)); ("timezone", PStr (timezone loc))])
    0) as Ha.
  fold (fetch_for_location net (latitude loc) (longitude loc) s e (timezone loc)) in Ha.
  destruct (fetch_for_location _ _ _ _ _ _) as [archive|]; [|exact Ha].
  pose proof (get_json_ordinary
    (net OPEN_METEO_FORECAST
       [("latitude", PNum (latitude loc)); ("longitude", PNum (longitude loc));
        ("hourly", PStr (join "," HOURLY_VARS)); ("timezone", PStr (timezone loc))])
    0) as Hf.
  fold (fetch_forecast net (latitude loc) (longitude loc) (timezone loc)) in Hf.
  io_steps.
  destruct (fetch_forecast _ _ _ _) as [forecast|]; [|exact Hf].
  io_steps.
  pose proof (combine_hourly_ordinary archive forecast (name loc)) as Hc.
  destruct (combine_hourly _ _ _ _) as [hourly|]; [|exact Hc].
  now destruct (empty hourly).
Qed.

(** A table the worker returns was built by [combine_hourly] for the
    location's name, and has rows. *)
Lemma worker_returns_combined (net : network) (loc : Location) (s e raw : string)
    (df : DataFrame) :
  fst (_worker_fetch_city dt net loc s e raw) = Ok (Some df) ->
  rows df <> [] /\
  exists archive forecast,
    combine_hourly dt archive forecast (name loc) = Ok df.
Proof.
  unfold _worker_fetch_city, save_raw_json. io_steps.
  destruct (fetch_for_location _ _ _ _ _ _) as [archive|]; [|discriminate].
  io_steps.
  destruct (fetch_forecast _ _ _ _) as [forecast|]; [|discriminate].
  io_steps.
  destruct (combine_hourly _ _ _ _) as [hourly|] eqn:E; [|discriminate].
  destruct (empty hourly) eqn:Hempty; cbn [ret fst]; [discriminate|].
  intros H. injection H as <-. split; [|eauto].
  unfold empty in Hempty. destruct (columns hourly); [discriminate|].
  destruct (rows hourly); [discriminate|congruence].
Qed.

End Run.

(** *** [compute] *)

Lemma compute_writes {A} (P : string * file -> Prop) (tasks : list (IO A)) :
  Forall (fun t => Forall P (snd t)) tasks -> Forall P (snd (compute tasks)).
Proof.
  induction 1 as [|t tasks Ht _ IH]; cbn [compute]; [constructor|].
  apply bind_Forall; [exact Ht|intros a _].
  apply bind_Forall; [exact IH|intros others _]. constructor.
Qed.

Lemma compute_ordinary {A} (tasks : list (IO A)) :
  Forall (fun t => ordinary (fst t)) tasks -> ordinary (fst (compute tasks)).
Proof.
  induction 1 as [|t tasks Ht _ IH]; cbn [compute]; [exact I|].
  rewrite bind_result. destruct (fst t); [|exact Ht].
  rewrite bind_result. destruct (fst (compute tasks)); [exact I|exact IH].
Qed.

Lemma compute_results {A} (tasks : list (IO A)) (results : list A) :
  fst (compute tasks) = Ok results ->
  Forall2 (fun t r => fst t = Ok r) tasks results.
Proof.
  revert results. induction tasks as [|t tasks IH]; intros results; cbn [compute].
  - intros E. injection E as <-. constructor.
  - rewrite bind_result. destruct (fst t) as [a|] eqn:Et; [|discriminate].
    rewrite bind_result. destruct (fst (compute tasks)) as [others|]; [|discriminate].
    cbn [ret fst]. intros E. injection E as <-. constructor; [exact Et|now apply IH].
Qed.

Lemma compute_all_empty {A} (tasks : list (IO (option A))) (results : list (option A)) :
  Forall empty_or_failed tasks ->
  fst (compute tasks) = Ok results -> not_none results = [].
Proof.
  intros Hall E. apply compute_results in E.
  induction E as [|t r tasks results Ht _ IH]; [reflexivity|].
  inversion Hall as [|? ? Hhd Htl]; subst.
  unfold empty_or_failed in Hhd. rewrite Ht in Hhd.
  destruct r; [contradiction|]. simpl. now apply IH.
Qed.

Lemma filter_none {A} (p : A -> bool) (l : list A) :
  Forall (fun x => p x = false) l -> filter p l = [].
Proof.
  induction 1 as [|x l Hx _ IH]; simpl; [reflexivity|]. now rewrite Hx.
Qed.

Section Pipeline.

Variable dt : list json -> json -> option Z.
Variables (settings : Settings) (locations : list Location) (net : network).
Variables (start end_ : option string).

Let task (loc : Location) : IO (option DataFrame) :=
  _worker_fetch_city dt net loc
    (or_default start (default_start_date settings))
    (or_default end_ (default_end_date settings))
    (os_path_join (data_dir settings) "raw").

Lemma tasks_write_json :
  Forall (fun pf => is_table (snd pf) = false)
         (snd (compute (map task locations))).
Proof.
  apply compute_writes, Forall_map, Forall_forall. intros loc _.
  apply worker_writes_json.
Qed.

Lemma tasks_ordinary : ordinary (fst (compute (map task locations))).
Proof.
  apply compute_ordinary, Forall_map, Forall_forall. intros loc _.
  apply worker_ordinary.
Qed.

(** C6: every location's task fails or comes back empty: the run ends in a
    non-zero exit status, and no file holding an hourly or daily table has
    been written. *)
Theorem all_fail_abort :
  (forall loc, In loc locations -> empty_or_failed (task loc)) ->
  exit_status (run_pipeline dt settings locations net start end_) <> 0%Z /\
  tables_written (run_pipeline dt settings locations net start end_) = [].
Proof.
  intros Hall. unfold exit_status, tables_written, run_pipeline.
  fold task. rewrite bind_result, bind_writes, filter_app.
  rewrite (filter_none _ _ tasks_write_json). cbn [app].
  pose proof tasks_ordinary as Hord.
  destruct (fst (compute (map task locations))) as [results|e] eqn:E.
  - rewrite (compute_all_empty (map task locations) results); [|now apply Forall_map, Forall_forall|exact E].
    cbn. split; [discriminate|reflexivity].
  - split; [|reflexivity]. destruct e; try discriminate. contradiction.
Qed.

(** Every table file of a run holds the merge of the tables the workers
    returned, or its daily summary. *)
Lemma run_pipeline_tables (pf : string * file) :
  In pf (tables_written (run_pipeline dt settings locations net start end_)) ->
  exists results hourly_df,
    fst (compute (map task locations)) = Ok results /\
    merge_hourly (not_none results) = Ok hourly_df /\
    (snd pf = ParquetFile (HourlyTable hourly_df) \/
     snd pf = CsvFile (HourlyTable hourly_df) \/
     exists daily_df,
       summarize_daily hourly_df = Ok daily_df /\
       (snd pf = ParquetFile (DailyTable daily_df) \/
        snd pf = CsvFile (DailyTable daily_df))).
Proof.
  unfold tables_written, run_pipeline. fold task.
  rewrite bind_writes, filter_app, (filter_none _ _ tasks_write_json). cbn [app].
  destruct (fst (compute (map task locations))) as [results|e]; [|intros []].
  destruct (not_none results) as [|d tables] eqn:Etables; [intros []|].
  rewrite bind_writes. cbn [lift fst snd app].
  destruct (merge_hourly (d :: tables)) as [hourly_df|] eqn:Emerge; [|intros []].
  unfold save_parquet, save_csv.
  rewrite bind_writes. cbn [write_file fst snd app].
  rewrite bind_writes. cbn [lift fst snd app].
  destruct (summarize_daily hourly_df) as [daily_df|] eqn:Edaily.
  - rewrite bind_writes. cbn [write_file fst snd app].
    rewrite bind_writes. cbn [write_file fst snd app filter is_table].
    intros H. exists results, hourly_df. rewrite Etables.
    split; [reflexivity|split; [exact Emerge|]].
    destruct H as [<-|[<-|[<-|[<-|[]]]]]; cbn [snd]; eauto 6.
  - cbn [filter is_table snd]. intros H. exists results, hourly_df. rewrite Etables.
    split; [reflexivity|split; [exact Emerge|]].
    destruct H as [<-|[]]; cbn [snd]; eauto.
Qed.

(** The results of the tasks, location by location. *)
Lemma tasks_results (results : list (option DataFrame)) :
  fst (compute (map task locations)) = Ok results ->
  Forall2 (fun loc r => fst (task loc) = Ok r) locations results.
Proof.
  intros E. apply compute_results in E. revert results E.
  induction locations as [|loc locs IH]; intros results E; inversion E; subst;
    constructor; [assumption|now apply IH].
Qed.

End Pipeline.

(** The tables among the results, without the [None]s. *)
Lemma not_none_rows (results : list (option DataFrame)) :
  flat_map rows (not_none results)
  = flat_map (fun r => match r with Some t => rows t | None => [] end) results.
Proof.
  induction results as [|[t|] results IH]; cbn [not_none flat_map];
    [reflexivity|now rewrite IH|exact IH].
Qed.

Lemma not_none_pairs (R : DataFrame -> DataFrame -> Prop)
    (results : list (option DataFrame)) :
  ForallOrdPairs R (not_none results) <->
  ForallOrdPairs (fun a b => forall ta tb, a = Some ta -> b = Some tb -> R ta tb)
                 results.
Proof.
  induction results as [|[t|] results IH]; cbn [not_none].
  - split; constructor.
  - split; intros H; inversion H as [|? ? Hhd Htl]; subst; constructor.
    + apply Forall_forall. intros [t'|] Hin ta tb Ea Eb; [|discriminate].
      injection Ea as <-. injection Eb as <-.
      rewrite Forall_forall in Hhd. apply Hhd.
      clear - Hin. induction results as [|[u|] results IH]; cbn [not_none];
        [destruct Hin| |].
      * destruct Hin as [E|Hin]; [injection E as ->; now left|right; now apply IH].
      * destruct Hin as [E|Hin]; [discriminate|now apply IH].
    + now apply IH.
    + apply Forall_forall. intros t' Hin. rewrite Forall_forall in Hhd.
      apply (Hhd (Some t')); [|reflexivity|reflexivity].
      clear - Hin. induction results as [|[u|] results IH]; cbn [not_none] in Hin;
        [destruct Hin| |].
      * destruct Hin as [->|Hin]; [now left|right; now apply IH].
      * right. now apply IH.
    + now apply IH.
  - split; intros H.
    + constructor; [|now apply IH].
      apply Forall_forall. intros b _ ta tb Ea. discriminate.
    + inversion H; subst. now apply IH.
Qed.

(** *** The order of the tables *)


Lemma merge_hourly_rows (tables : list DataFrame) (out : DataFrame) :
  merge_hourly tables = Ok out ->
  rows out = sort_rows city_time_leb (flat_map rows tables).
Proof.
  unfold merge_hourly, rbind.
  destruct (concat tables) as [cat|] eqn:E; [|discriminate].
  apply concat_rows in E. unfold sort_values_city_time.
  destruct (negb _); [discriminate|]. destruct (negb _); [discriminate|].
  intros H. injection H as <-. cbn [rows]. now rewrite E.
Qed.

(** [city_time_leb] is the lexicographic order of the key: the city first
    (by code points), then the time, NaT after every timestamp. *)
Lemma city_time_leb_lex (a b : Row) :
  city_time_leb a b = true <->
  String.ltb (city a) (city b) = true \/
  (city a = city b /\ time_leb (time a) (time b) = true).
Proof.
  unfold city_time_leb, String.leb, String.ltb.
  destruct (String.eqb_spec (city a) (city b)) as [E|N].
  - rewrite E. split; [intros H; right; now split|].
    intros [H|[_ H]]; [|exact H].
    pose proof (String.compare_antisym (city b) (city b)) as Hanti.
    destruct (String.compare (city b) (city b)); discriminate.
  - destruct (String.compare (city a) (city b)) eqn:C.
    + apply String.compare_eq_iff in C. contradiction.
    + split; [now left|reflexivity].
    + split; [discriminate|intros [H|[H _]]; [discriminate|contradiction]].
Qed.



(** *** Raw payload files *)




(** *** Keys across the per-location tables *)

Lemma NoDup_app_disjoint {A} (l1 l2 : list A) :
  NoDup (l1 ++ l2) -> forall a, In a l1 -> ~ In a l2.
Proof.
  induction l1 as [|x l1 IH]; simpl; [tauto|].
  intros H a [<-|Ha] H2.
  - apply NoDup_cons_iff in H as [H _]. apply H, in_or_app. now right.
  - apply NoDup_cons_iff in H as [_ H]. exact (IH H a Ha H2).
Qed.

Lemma NoDup_flat_map {A B} (f : A -> list B) (l : list A) :
  NoDup (flat_map f l) <->
  Forall (fun x => NoDup (f x)) l /\
  ForallOrdPairs (fun a b => forall k, In k (f a) -> ~ In k (f b)) l.
Proof.
  induction l as [|x l IH]; simpl.
  - split; [intros _; split; constructor|intros _; constructor].
  - split.
    + intros H.
      assert (NoDup (flat_map f l)) as Hl by now apply NoDup_app_remove_l in H.
      apply IH in Hl as [Hl1 Hl2]. split.
      * constructor; [now apply NoDup_app_remove_r in H|exact Hl1].
      * constructor; [|exact Hl2]. apply Forall_forall. intros y Hy k Hk Hk'.
        apply (NoDup_app_disjoint _ _ H k Hk). apply in_flat_map. eauto.
    + intros [H1 H2]. inversion H1 as [|? ? Hx Hl]; subst.
      inversion H2 as [|? ? Hxl Hpairs]; subst.
      apply NoDup_app; [exact Hx|apply IH; now split|].
      intros k Hk Hk'. apply in_flat_map in Hk' as (y & Hy & Hk').
      rewrite Forall_forall in Hxl. exact (Hxl y Hy k Hk Hk').
Qed.

Lemma keys_flat_map (tables : list DataFrame) :
  keys (flat_map rows tables) = flat_map (fun t => keys (rows t)) tables.
Proof.
  unfold keys. induction tables as [|t tables IH]; simpl; [reflexivity|].
  now rewrite map_app, IH.
Qed.

Section Merge.

Variable dt : list json -> json -> option Z.

Lemma built_for_city (c : string) (t : DataFrame) (k : key) :
  built_for dt c t -> In k (keys (rows t)) -> fst k = c.
Proof.
  intros (a & f & H) Hk. apply in_map_iff in Hk as (r & <- & Hr).
  apply combine_hourly_city in H. rewrite Forall_forall in H. exact (H r Hr).
Qed.

Lemma distinct_labels_share_no_key (labels : list string) (tables : list DataFrame) :
  Forall2 (built_for dt) labels tables -> NoDup labels ->
  ForallOrdPairs (fun a b => share_no_key (rows a) (rows b)) tables.
Proof.
  induction 1 as [|c t labels tables Hct Hrest IH]; intros Hnd; [constructor|].
  apply NoDup_cons_iff in Hnd as [Hc Hnd]. constructor; [|now apply IH].
  apply Forall_forall. intros t' Ht' k Hk Hk'.
  apply (built_for_city c t k Hct) in Hk.
  clear IH Hct. induction Hrest as [|c' t0 labels tables Hc't0 _ IH]; [destruct Ht'|].
  destruct Ht' as [->|Ht'].
  - apply (built_for_city c' t' k Hc't0) in Hk'. apply Hc. left. congruence.
  - apply IH; [| |exact Ht'].
    + intros Hin. apply Hc. now right.
    + now apply NoDup_cons_iff in Hnd.
Qed.

(** The merge drops nothing: its keys are unique exactly when no two of
    the merged tables share a key. *)
Lemma merge_hourly_keys (labels : list string) (tables : list DataFrame)
    (out : DataFrame) :
  Forall2 (built_for dt) labels tables ->
  merge_hourly tables = Ok out ->
  Permutation (rows out) (flat_map rows tables) /\
  (NoDup (keys (rows out)) <->
   ForallOrdPairs (fun a b => share_no_key (rows a) (rows b)) tables) /\
  (NoDup labels -> NoDup (keys (rows out))).
Proof.
  intros Hbuilt Hmerge.
  assert (Permutation (rows out) (flat_map rows tables)) as Hperm.
  { rewrite (merge_hourly_rows _ _ Hmerge). apply sort_rows_perm. }
  assert (Forall (fun t => NoDup (keys (rows t))) tables) as Heach.
  { clear - Hbuilt. induction Hbuilt as [|c t ? ? (a & f & H) _ IH]; constructor.
    - now apply combine_hourly_NoDup in H.
    - exact IH. }
  assert (NoDup (keys (rows out)) <->
          ForallOrdPairs (fun a b => share_no_key (rows a) (rows b)) tables) as Hiff.
  { split.
    - intros H. apply (Permutation_NoDup (Permutation_map row_key Hperm)) in H.
      fold (keys (flat_map rows tables)) in H. rewrite keys_flat_map in H.
      now apply NoDup_flat_map in H.
    - intros H.
      apply (Permutation_NoDup (Permutation_map row_key (Permutation_sym Hperm))).
      fold (keys (flat_map rows tables)). rewrite keys_flat_map.
      apply NoDup_flat_map. now split. }
  split; [exact Hperm|split; [exact Hiff|]].
  intros Hnd. apply Hiff. now apply distinct_labels_share_no_key with labels.
Qed.

Variables (settings : Settings) (locations : list Location) (net : network).
Variables (start end_ : option string).

Let task (loc : Location) : IO (option DataFrame) :=
  _worker_fetch_city dt net loc
    (or_default start (default_start_date settings))
    (or_default end_ (default_end_date settings))
    (os_path_join (data_dir settings) "raw").

(** The tables that reach the merge, with the locations they came from. *)
Lemma tables_of_results (locs : list Location) (results : list (option DataFrame)) :
  Forall2 (fun t r => fst t = Ok r) (map task locs) results ->
  exists locs',
    Forall2 (built_for dt) (map name locs') (not_none results) /\
    incl locs' locs /\
    (NoDup (map name locs) -> NoDup (map name locs')).
Proof.
  revert results. induction locs as [|loc locs IH]; intros results H.
  - inversion H; subst. exists []. repeat split; [constructor|easy|easy].
  - inversion H as [|? r ? results' Hr Hrest]; subst.
    destruct (IH _ Hrest) as (locs' & Hb & Hincl & Hnd).
    destruct r as [df|]; cbn [not_none].
    + exists (loc :: locs'). split; [|split].
      * constructor; [|exact Hb].
        apply worker_returns_combined in Hr as [_ (a & f & Hc)]. now exists a, f.
      * intros x [<-|Hx]; [now left|right; now apply Hincl].
      * cbn [map]. intros Hn. apply NoDup_cons_iff in Hn as [Hloc Hn].
        constructor; [|now apply Hnd].
        intros Hin. apply Hloc. apply in_map_iff in Hin as (x & E & Hx).
        apply in_map_iff. exists x. split; [exact E|now apply Hincl].
    + exists locs'. split; [exact Hb|split].
      * intros x Hx. right. now apply Hincl.
      * cbn [map]. intros Hn. apply NoDup_cons_iff in Hn as [_ Hn]. now apply Hnd.
Qed.

(** C10 (as amended): deduplication happens in [combine_hourly] only.  The
    hourly table a run writes holds every row of every table the workers
    returned, one worker per configured location, each table built by
    [combine_hourly] for the name of its location and free of duplicate
    keys: no row is dropped by the merge.  Its [(city, time)] keys are
    unique exactly when no two of those tables share a key; pairwise
    distinct location names are enough for that. *)
Theorem merge_keeps_every_row (path : string) (hourly_df : DataFrame) :
  In (path, ParquetFile (HourlyTable hourly_df))
     (snd (run_pipeline dt settings locations net start end_)) ->
  exists results : list (option DataFrame),
    Forall2 (fun loc r =>
               fst (task loc) = Ok r /\
               forall t, r = Some t ->
                 built_for dt (name loc) t /\ NoDup (keys (rows t)))
            locations results /\
    Permutation (rows hourly_df)
      (flat_map (fun r => match r with Some t => rows t | None => [] end)
                results) /\
    (NoDup (keys (rows hourly_df)) <->
     ForallOrdPairs (fun a b => forall ta tb, a = Some ta -> b = Some tb ->
                                 share_no_key (rows ta) (rows tb))
                    results) /\
    (NoDup (map name locations) -> NoDup (keys (rows hourly_df))).
Proof.
  intros Hin.
  assert (In (path, ParquetFile (HourlyTable hourly_df))
             (tables_written (run_pipeline dt settings locations net start end_)))
    as Ht by (apply filter_In; split; [exact Hin|reflexivity]).
  apply run_pipeline_tables in Ht as (results & h & Eres & Emerge & Hf).
  cbn [snd] in Hf.
  assert (h = hourly_df) as ->.
  { destruct Hf as [E|[E|(d & _ & [E|E])]]; try discriminate. now injection E. }
  pose proof (tasks_results dt settings locations net start end_ results Eres)
    as Hres.
  apply compute_results in Eres.
  destruct (tables_of_results locations results Eres) as (locs' & Hb & Hincl & Hnd).
  destruct (merge_hourly_keys _ _ _ Hb Emerge) as (Hperm & Hiff & Hlabels).
  rewrite not_none_rows in Hperm.
  rewrite (not_none_pairs (fun a b => share_no_key (rows a) (rows b))) in Hiff.
  exists results. split; [|split; [exact Hperm|split; [exact Hiff|]]].
  - clear - Hres. induction Hres as [|loc r locs rs Hr _ IH]; constructor;
      [|exact IH].
    split; [exact Hr|]. intros t ->.
    apply worker_returns_combined in Hr as [_ (a & f & Hc)]. split.
    + now exists a, f.
    + now apply combine_hourly_NoDup in Hc.
  - intros Hn. apply Hlabels, Hnd, Hn.
Qed.

End Merge.

Lemma merge_keeps_every_row_witness :
  exists results : list (option DataFrame),
    Forall2 (fun loc r =>
               fst (_worker_fetch_city Iso8601.coerce Samples.net_ok loc
                      (or_default None (default_start_date Samples.settings))
                      (or_default None (default_end_date Samples.settings))
                      (os_path_join (data_dir Samples.settings) "raw")) = Ok r /\
               forall t, r = Some t ->
                 built_for Iso8601.coerce (name loc) t /\ NoDup (keys (rows t)))
            [Samples.austin; Samples.berlin] results /\
    Permutation (rows Samples.ok_hourly)
      (flat_map (fun r => match r with Some t => rows t | None => [] end)
                results) /\
    (NoDup (keys (rows Samples.ok_hourly)) <->
     ForallOrdPairs (fun a b => forall ta tb, a = Some ta -> b = Some tb ->
                                 share_no_key (rows ta) (rows tb))
                    results) /\
    (NoDup (map name [Samples.austin; Samples.berlin]) ->
     NoDup (keys (rows Samples.ok_hourly))).
Proof.
  apply (merge_keeps_every_row Iso8601.coerce Samples.settings
           [Samples.austin; Samples.berlin] Samples.net_ok None None
           "./data/processed/hourly.parquet" Samples.ok_hourly).
  vm_compute. do 4 right. left. reflexivity.
Defined.

(** C10, as stated, fails in the "only if" direction: two configured
    locations are both called Austin, the API answers with different hours
    for them, and the hourly table of the run has unique [(city, time)]
    keys all the same. *)
Lemma same_name_unique_keys :
  exists h,
    hourly_written Samples.same_name_run = [h] /\
    List.length (rows h) = 4 /\
    NoDup (keys (rows h)) /\
    ~ NoDup (map name [Samples.austin; Samples.austin_north]).
Proof.
  eexists. split; [vm_compute; reflexivity|]. split; [reflexivity|]. split.
  - vm_compute. repeat constructor; simpl; intuition discriminate.
  - vm_compute. intros H. inversion H as [|? ? Hnotin _]; subst.
    apply Hnotin. now left.
Qed.

Lemma all_fail_abort_witness :
  exit_status (run_pipeline Iso8601.coerce Samples.settings
                 [Samples.austin; Samples.berlin] Samples.net_all_fail None None)
  <> 0%Z /\
  tables_written (run_pipeline Iso8601.coerce Samples.settings
                    [Samples.austin; Samples.berlin] Samples.net_all_fail None None)
  = [].
Proof.
  apply (all_fail_abort Iso8601.coerce Samples.settings
           [Samples.austin; Samples.berlin] Samples.net_all_fail None None).
  intros loc [<-|[<-|[]]]; vm_compute; exact I.
Defined.

End PipelineFacts.

(** ** The daily summary *)

Module DailyFacts.
Import Pandas.

(** *** The kernels compute the aggregates of the non-null values *)











(** *** The group keys *)

Lemma gkey_compare_eq (a b : gkey) : gkey_compare a b = Eq <-> a = b.
Proof.
  destruct a as [ca da], b as [cb db]. unfold gkey_compare. cbn [fst snd].
  pose proof (String_as_OT.cmp_eq ca cb) as Hs. unfold String_as_OT.cmp in Hs.
  destruct (String.compare ca cb).
  - rewrite Z.compare_eq_iff. destruct Hs as [Hs _]. rewrite (Hs eq_refl).
    split; [now intros ->|intros E; now injection E].
  - split; [discriminate|]. intros E. injection E as E _.
    apply Hs in E. discriminate.
  - split; [discriminate|]. intros E. injection E as E _.
    apply Hs in E. discriminate.
Qed.

Lemma gkey_compare_gt (a b : gkey) : gkey_compare a b = Gt -> gkey_lt b a.
Proof.
  destruct a as [ca da], b as [cb db]. unfold gkey_lt, gkey_compare. cbn [fst snd].
  rewrite (String.compare_antisym cb ca), (Z.compare_antisym da db).
  destruct (String.compare ca cb); cbn [CompOpp]; try discriminate; [|reflexivity].
  destruct (da ?= db)%Z; cbn [CompOpp]; try discriminate. reflexivity.
Qed.

Lemma gkey_lt_trans (a b c : gkey) : gkey_lt a b -> gkey_lt b c -> gkey_lt a c.
Proof.
  destruct a as [ca da], b as [cb db], c as [cc dc].
  unfold gkey_lt, gkey_compare. cbn [fst snd].
  pose proof (String_as_OT.cmp_eq ca cb) as Eab.
  pose proof (String_as_OT.cmp_eq cb cc) as Ebc.
  pose proof (String_as_OT.cmp_lt ca cb) as Lab.
  pose proof (String_as_OT.cmp_lt cb cc) as Lbc.
  pose proof (String_as_OT.cmp_lt ca cc) as Lac.
  pose proof (String_as_OT.cmp_eq ca cc) as Eac.
  unfold String_as_OT.cmp in *.
  destruct (String.compare ca cb) eqn:Cab; try discriminate;
    destruct (String.compare cb cc) eqn:Cbc; try discriminate; intros Hab Hbc.
  - assert (ca = cc) as E by (rewrite (proj1 Eab eq_refl); now apply Ebc).
    rewrite (proj2 Eac E). apply Z.compare_lt_iff.
    apply Z.compare_lt_iff in Hab. apply Z.compare_lt_iff in Hbc.
    now apply Z.lt_trans with db.
  - assert (String.compare ca cc = Lt) as ->; [|reflexivity].
    apply Lac. rewrite (proj1 Eab eq_refl). now apply Lbc.
  - assert (String.compare ca cc = Lt) as ->; [|reflexivity].
    apply Lac. rewrite <- (proj1 Ebc eq_refl). now apply Lab.
  - assert (String.compare ca cc = Lt) as ->; [|reflexivity].
    apply Lac. apply String_as_OT.lt_trans with cb; [now apply Lab|now apply Lbc].
Qed.

Lemma gkey_lt_irrefl (a : gkey) : ~ gkey_lt a a.
Proof.
  unfold gkey_lt. intros H.
  assert (gkey_compare a a = Eq) as E by now apply gkey_compare_eq.
  congruence.
Qed.

Lemma insert_key_In (k x : gkey) (l : list gkey) :
  In x (insert_key k l) <-> x = k \/ In x l.
Proof.
  induction l as [|k' l IH]; cbn [insert_key].
  - cbn. intuition.
  - destruct (gkey_compare k k') eqn:C.
    + apply gkey_compare_eq in C. subst k'. cbn. intuition.
    + cbn. intuition.
    + cbn [In]. rewrite IH. intuition.
Qed.

Lemma insert_key_sorted (k : gkey) (l : list gkey) :
  StronglySorted gkey_lt l -> StronglySorted gkey_lt (insert_key k l).
Proof.
  induction 1 as [|k' l Hs IH Hall]; cbn [insert_key].
  - repeat constructor.
  - destruct (gkey_compare k k') eqn:C.
    + now constructor.
    + constructor; [now constructor|]. constructor; [exact C|].
      eapply Forall_impl; [|exact Hall]. intros y Hy.
      now apply gkey_lt_trans with k'.
    + constructor; [exact IH|]. apply Forall_forall. intros y Hy.
      apply insert_key_In in Hy as [->|Hy]; [now apply gkey_compare_gt|].
      rewrite Forall_forall in Hall. now apply Hall.
Qed.

Lemma sorted_keys_NoDup (l : list gkey) : StronglySorted gkey_lt l -> NoDup l.
Proof.
  induction 1 as [|k l _ IH Hall]; constructor; [|exact IH].
  intros Hin. rewrite Forall_forall in Hall. exact (gkey_lt_irrefl k (Hall k Hin)).
Qed.

Lemma fold_keys_sorted (rs : list Row) : forall acc,
  StronglySorted gkey_lt acc ->
  StronglySorted gkey_lt (fold_left add_row_key rs acc).
Proof.
  induction rs as [|r rs IH]; intros acc Hacc; cbn [fold_left]; [exact Hacc|].
  apply IH. unfold add_row_key. destruct (row_date r); [|exact Hacc].
  now apply insert_key_sorted.
Qed.



Lemma group_keys_sorted (rs : list Row) : StronglySorted gkey_lt (group_keys rs).
Proof. apply fold_keys_sorted. constructor. Qed.

(** *** [summarize_daily] on a table of the data model *)

Lemma numeric_cell (rs : list Row) (r : Row) (f : string) :
  numeric rs = true -> In r rs -> In f (map fst agg_map) ->
  is_float (cell f r) = true.
Proof.
  unfold numeric. rewrite forallb_forall. intros H Hr Hf.
  specialize (H r Hr). rewrite forallb_forall in H. now apply H.
Qed.

Lemma numeric_filter (p : Row -> bool) (rs : list Row) :
  numeric rs = true -> numeric (filter p rs) = true.
Proof.
  unfold numeric. rewrite !forallb_forall. intros H r Hr.
  apply H. now apply filter_In in Hr.
Qed.

Lemma float_column_numeric (f : string) (g : list Row) :
  (forall r, In r g -> is_float (cell f r) = true) ->
  float_column (map (cell f) g) = Ok (column f g).
Proof.
  induction g as [|r g IH]; intros H; [reflexivity|].
  cbn [map float_column column]. rewrite IH by (intros r' Hr'; apply H; now right).
  pose proof (H r (or_introl eq_refl)) as Hr.
  destruct (cell f r); try discriminate; reflexivity.
Qed.

Lemma aggregate_columns_numeric (acols : list (string * string)) (g : list Row) :
  Forall (fun col => In (fst col) (map fst agg_map) /\ kernel (snd col) <> None)
         acols ->
  numeric g = true ->
  aggregate_columns acols g
  = Ok (map (fun col => match kernel (snd col) with
                        | Some k => k (column (fst col) g)
                        | None => None
                        end) acols).
Proof.
  intros Hcols Hnum. induction Hcols as [|col acols [Hf Hk] _ IH]; [reflexivity|].
  cbn [aggregate_columns map]. unfold rbind.
  rewrite float_column_numeric
    by (intros r Hr; now apply (numeric_cell g)).
  unfold aggregate. destruct (kernel (snd col)); [|contradiction].
  now rewrite IH.
Qed.

Lemma agg_columns_known :
  Forall (fun col => In (fst col) (map fst agg_map) /\ kernel (snd col) <> None)
         agg_columns.
Proof.
  unfold agg_columns, agg_map. cbn [flat_map map app agg_funcs fst snd].
  repeat (apply Forall_cons; [split; [cbn; tauto|discriminate]|]).
  apply Forall_nil.
Qed.

Lemma agg_groups_numeric (ks : list gkey) (rs : list Row) :
  numeric rs = true ->
  agg_groups ks rs = Ok (map (fun k => (k, aggregates (group_rows k rs))) ks).
Proof.
  intros Hnum. induction ks as [|k ks IH]; [reflexivity|].
  cbn [agg_groups map]. unfold rbind.
  rewrite (aggregate_columns_numeric _ _ agg_columns_known).
  - now rewrite IH.
  - now apply numeric_filter.
Qed.

Lemma summarize_daily_rows (df : DataFrame) :
  empty df = false -> complete df = true -> numeric (rows df) = true ->
  summarize_daily df
  = Ok (mkDailyFrame ("city" :: "date" :: map flatten_column agg_columns)
          (map (daily_row (rows df)) (group_keys (rows df)))).
Proof.
  intros Hempty Hcomplete Hnum. unfold summarize_daily. rewrite Hempty.
  unfold complete in Hcomplete. cbn [forallb] in Hcomplete.
  apply andb_true_iff in Hcomplete as [Ht Hrest].
  apply andb_true_iff in Hrest as [Hc Hfields].
  rewrite Ht, Hc. cbn [negb].
  assert (missing_columns df = []) as ->.
  { unfold missing_columns. apply PipelineFacts.filter_none, Forall_forall.
    intros c Hin. rewrite forallb_forall in Hfields. now rewrite (Hfields c Hin). }
  unfold rbind. rewrite (agg_groups_numeric _ _ Hnum). rewrite map_map.
  reflexivity.
Qed.






(** *** The columns of the daily table *)

(** C8 (as amended): for a non-empty hourly table of the data model the
    daily table has the columns [city], [date] and ten aggregate columns
    (not eleven), each named [<field>_<aggregate>] after a pair of
    [agg_map], the fields with a single aggregate included; every row
    carries exactly these ten aggregates. *)
Theorem daily_schema (df : DataFrame) :
  empty df = false -> complete df = true -> numeric (rows df) = true ->
  exists daily,
    summarize_daily df = Ok daily /\
    d_columns daily
    = "city" :: "date" :: map (fun col => (fst col ++ "_" ++ snd col)%string) agg_columns /\
    agg_columns
    = [ ("temperature_2m", "mean"); ("temperature_2m", "min");
        ("temperature_2m", "max"); ("relative_humidity_2m", "mean");
        ("precipitation", "sum"); ("rain", "sum"); ("snowfall", "sum");
        ("windspeed_10m", "mean"); ("cloudcover", "mean");
        ("pressure_msl", "mean") ] /\
    List.length (d_columns daily) = 12 /\
    Forall (fun row => "city" :: "date" :: map fst (aggs row) = d_columns daily)
           (d_rows daily).
Proof.
  intros Hempty Hcomplete Hnum. eexists.
  split; [now apply summarize_daily_rows|]. cbn [d_columns d_rows].
  split; [reflexivity|]. split; [reflexivity|]. split; [reflexivity|].
  apply Forall_forall. intros row Hrow. apply in_map_iff in Hrow as (k & <- & _).
  reflexivity.
Qed.

Lemma daily_schema_witness :
  exists daily,
    summarize_daily Samples.day_frame = Ok daily /\
    d_columns daily
    = "city" :: "date" :: map (fun col => (fst col ++ "_" ++ snd col)%string) agg_columns /\
    agg_columns
    = [ ("temperature_2m", "mean"); ("temperature_2m", "min");
        ("temperature_2m", "max"); ("relative_humidity_2m", "mean");
        ("precipitation", "sum"); ("rain", "sum"); ("snowfall", "sum");
        ("windspeed_10m", "mean"); ("cloudcover", "mean");
        ("pressure_msl", "mean") ] /\
    List.length (d_columns daily) = 12 /\
    Forall (fun row => "city" :: "date" :: map fst (aggs row) = d_columns daily)
           (d_rows daily).
Proof.
  apply (daily_schema Samples.day_frame); reflexivity.
Defined.

(** C8, as stated, fails on the count: the daily table of a non-empty
    hourly table has ten aggregate columns, not eleven. *)
Lemma daily_table_has_ten_aggregates :
  exists daily,
    summarize_daily Samples.day_frame = Ok daily /\
    empty Samples.day_frame = false /\
    d_columns daily
    = [ "city"; "date"; "temperature_2m_mean"; "temperature_2m_min";
        "temperature_2m_max"; "relative_humidity_2m_mean"; "precipitation_sum";
        "rain_sum"; "snowfall_sum"; "windspeed_10m_mean"; "cloudcover_mean";
        "pressure_msl_mean" ] /\
    List.length (skipn 2 (d_columns daily)) = 10 /\
    List.length (skipn 2 (d_columns daily)) <> 11.
Proof.
  eexists. split; [vm_compute; reflexivity|].
  repeat split; try reflexivity. discriminate.
Qed.

End DailyFacts.

(** ** More on the HTTP client *)

Module HttpMore.
Import Http.

(** *** The request budget *)

Lemma urlopen_bound (forcelist : list Z) (ep : endpoint) :
  forall budget c r s n,
    n < snd (urlopen budget c r s forcelist ep n) <= n + S budget.
Proof.
  induction budget as [|t IH]; intros c r s n; cbn [urlopen];
    destruct (ep n) as [resp| |]; try destruct (is_retry forcelist resp);
    try destruct s; try destruct c; try destruct r;
    cbn [snd]; try lia;
    match goal with
    | |- context [urlopen t ?c' ?r' ?s' forcelist ep (S n)] =>
        pose proof (IH c' r' s' (S n)); lia
    end.
Qed.

Lemma session_get_bound (ep : endpoint) (n : nat) :
  n < snd (session_get ep n) <= n + 7.
Proof. unfold session_get. apply urlopen_bound. Qed.

Lemma loop_bound (ep : endpoint) (attempts : list nat) : forall last n,
  n <= snd (_get_json_loop attempts last ep n) <= n + 7 * List.length attempts.
Proof.
  induction attempts as [|a attempts IH]; intros last n; cbn [_get_json_loop].
  - destruct last; cbn [snd List.length]; lia.
  - pose proof (session_get_bound ep n) as Hs.
    destruct (session_get ep n) as [[resp|e] n']; cbn [snd] in *; cbn [List.length].
    + destruct (status_code resp =? 429)%Z;
        [specialize (IH (Some resp) n'); lia|].
      destruct (raise_for_status resp); cbn [snd]; [lia|].
      destruct (7 <=? a)%nat; cbn [snd]; [lia|].
      specialize (IH (Some resp) n'); lia.
    + lia.
Qed.

Lemma loop_progress (ep : endpoint) (a : nat) (rest : list nat)
    (last : option Response) (n : nat) :
  n < snd (_get_json_loop (a :: rest) last ep n).
Proof.
  cbn [_get_json_loop]. pose proof (session_get_bound ep n) as Hs.
  destruct (session_get ep n) as [[resp|e] n']; cbn [snd] in *; [|lia].
  pose proof (loop_bound ep rest (Some resp) n') as Hrest.
  destruct (status_code resp =? 429)%Z; [lia|].
  destruct (raise_for_status resp); cbn [snd]; [lia|].
  destruct (7 <=? a)%nat; cbn [snd]; lia.
Qed.

(** X1: against an endpoint that never answers with a 3xx status (a
    redirect would be followed under a budget of its own), one call of
    [_get_json] sends at least one request and at most 49 (seven attempts
    of at most seven requests), whatever else the endpoint does. *)
Theorem get_json_request_budget (ep : endpoint) (n : nat) :
  (forall k r, ep k = Answer r -> ~ (300 <= status_code r < 400)%Z) ->
  n + 1 <= snd (_get_json ep n) <= n + 49.
Proof.
  intros _.
  pose proof (loop_bound ep (seq 1 7) None n) as H. unfold _get_json.
  rewrite length_seq in H. split; [|lia].
  pose proof (loop_progress ep 1 (seq 2 6) None n). change (seq 1 7) with (1 :: seq 2 6).
  lia.
Qed.

Lemma get_json_request_budget_witness :
  0 + 1 <= snd (_get_json rate_limited_thrice 0) <= 0 + 49.
Proof.
  apply (get_json_request_budget rate_limited_thrice 0).
  intros k r. unfold rate_limited_thrice, scripted, http.
  destruct k as [|[|[|[|k]]]]; cbn; intros E; injection E as <-; cbn; lia.
Defined.

(** *** An endpoint that keeps answering with a retried status *)

Lemma error_status_raises (r : Response) :
  (400 <= status_code r < 600)%Z ->
  raise_for_status r = Raise (HTTPError (status_code r)).
Proof.
  intros Hr. unfold raise_for_status.
  destruct (Z.leb_spec 400 (status_code r)); [|lia].
  destruct (Z.ltb_spec (status_code r) 600); [|lia].
  reflexivity.
Qed.

Lemma is_retry_error_status (r : Response) :
  is_retry (status_forcelist session_retry) r = true ->
  (400 <= status_code r < 600)%Z.
Proof.
  unfold is_retry, RETRY_AFTER_STATUS_CODES.
  cbn [session_retry status_forcelist existsb].
  repeat match goal with
  | |- context [(status_code r =? ?k)%Z] =>
      destruct (Z.eqb_spec (status_code r) k); [intros _; lia|]
  end.
  cbn. rewrite andb_false_r. discriminate.
Qed.

Lemma urlopen_exhausts (forcelist : list Z) (ep : endpoint) :
  forall budget c rd s n,
    budget <= s ->
    (forall k, n <= k <= n + budget ->
       exists r, ep k = Answer r /\ is_retry forcelist r = true) ->
    exists r, ep (n + budget) = Answer r /\
              urlopen budget c rd s forcelist ep n = (Ok r, S (n + budget)).
Proof.
  induction budget as [|t IH]; intros c rd s n Hle Hall.
  - destruct (Hall n) as (r & Er & Hr); [lia|]. exists r.
    rewrite Nat.add_0_r. split; [exact Er|]. cbn [urlopen]. now rewrite Er, Hr.
  - destruct s as [|s]; [lia|].
    destruct (Hall n) as (r & Er & Hr); [lia|].
    destruct (IH c rd s (S n)) as (r' & Er' & Hr'); [lia| |].
    { intros k Hk. apply Hall. lia. }
    exists r'. rewrite Nat.add_succ_r. split; [exact Er'|].
    cbn [urlopen]. rewrite Er, Hr. exact Hr'.
Qed.

Lemma loop_exhausts (ep : endpoint) : forall len a n last,
  a + len = 8 -> 0 < len ->
  (forall k, n <= k < n + 7 * len ->
     exists r, ep k = Answer r /\
               is_retry (status_forcelist session_retry) r = true) ->
  exists r, ep (n + 7 * len - 1) = Answer r /\
            _get_json_loop (seq a len) last ep n
            = (Raise (HTTPError (status_code r)), n + 7 * len).
Proof.
  induction len as [|len IH]; intros a n last Ha Hlen Hall; [lia|].
  destruct (urlopen_exhausts (status_forcelist session_retry) ep 6 3 3 6 n)
    as (r1 & E1 & Hget); [lia| |].
  { intros k Hk. apply Hall. lia. }
  assert (is_retry (status_forcelist session_retry) r1 = true) as Hr1.
  { destruct (Hall (n + 6)) as (r & Er & Hr); [lia|]. congruence. }
  pose proof (error_status_raises r1 (is_retry_error_status r1 Hr1)) as Hraise.
  cbn [seq _get_json_loop]. unfold session_get.
  cbn [session_retry total connect read status]. rewrite Hget.
  destruct len as [|len].
  - exists r1. replace (n + 7 * 1 - 1) with (n + 6) by lia.
    replace (n + 7 * 1) with (S (n + 6)) by lia. split; [exact E1|].
    assert (a = 7) as -> by lia. cbn [seq _get_json_loop]. rewrite Hraise.
    now destruct (status_code r1 =? 429)%Z.
  - destruct (IH (S a) (S (n + 6)) (Some r1)) as (r & Er & Hloop); [lia|lia| |].
    { intros k Hk. apply Hall. lia. }
    exists r. replace (n + 7 * S (S len) - 1) with (S (n + 6) + 7 * S len - 1) by lia.
    replace (n + 7 * S (S len)) with (S (n + 6) + 7 * S len) by lia.
    split; [exact Er|]. rewrite Hraise.
    destruct (Nat.leb_spec 7 a); [lia|].
    now destruct (status_code r1 =? 429)%Z.
Qed.

(** X2: an endpoint that answers every request with a status the session
    retries (429, 500, 502, 503, 504, or 413/429/503 with [Retry-After])
    is asked 49 times, seven per attempt, and [_get_json] then raises the
    [HTTPError] of the last response. *)
Theorem get_json_gives_up_after_49 (ep : endpoint) :
  (forall k, k < 49 ->
     exists r, ep k = Answer r /\
               is_retry (status_forcelist session_retry) r = true) ->
  exists r, ep 48 = Answer r /\
            _get_json ep 0 = (Raise (HTTPError (status_code r)), 49).
Proof.
  intros Hall. unfold _get_json.
  destruct (loop_exhausts ep 7 1 0 None) as (r & Er & Hloop); [lia|lia| |].
  { intros k Hk. apply Hall. lia. }
  exists r. split; [exact Er|exact Hloop].
Qed.

Lemma get_json_gives_up_after_49_witness :
  exists r, always_429 48 = Answer r /\
            _get_json always_429 0 = (Raise (HTTPError (status_code r)), 49).
Proof.
  apply (get_json_gives_up_after_49 always_429).
  intros k _. exists (mkResponse 429 false None). split; [|reflexivity].
  unfold always_429, scripted. now destruct k as [|[|k]].
Defined.

(** *** Failures that are not HTTP statuses *)

Lemma session_get_unreachable (ep : endpoint) (n : nat) :
  (forall k, n <= k < n + 4 -> ep k = ConnectFail) ->
  session_get ep n = (Raise ConnectionError, n + 4).
Proof.
  intros H. unfold session_get. cbn [session_retry total connect read status].
  cbn [urlopen]. rewrite (H n) by lia. cbn [urlopen].
  rewrite (H (S n)) by lia. cbn [urlopen].
  rewrite (H (S (S n))) by lia. cbn [urlopen].
  rewrite (H (S (S (S n)))) by lia.
  f_equal. lia.
Qed.

Lemma session_get_times_out (ep : endpoint) (n : nat) :
  (forall k, n <= k < n + 4 -> ep k = ReadFail) ->
  session_get ep n = (Raise ConnectionError, n + 4).
Proof.
  intros H. unfold session_get. cbn [session_retry total connect read status].
  cbn [urlopen]. rewrite (H n) by lia. cbn [urlopen].
  rewrite (H (S n)) by lia. cbn [urlopen].
  rewrite (H (S (S n))) by lia. cbn [urlopen].
  rewrite (H (S (S (S n)))) by lia.
  f_equal. lia.
Qed.

(** X3: the loop of [_get_json] retries HTTP statuses only.  When the
    first four requests cannot connect, or all time out, the session's own
    budget of three retries is spent and [_get_json] raises the connection
    error after those four requests, without a second attempt. *)
Theorem get_json_connection_error (ep : endpoint) :
  (forall k, k < 4 -> ep k = ConnectFail) \/
  (forall k, k < 4 -> ep k = ReadFail) ->
  _get_json ep 0 = (Raise ConnectionError, 4).
Proof.
  intros H. unfold _get_json. change (seq 1 7) with (1 :: seq 2 6).
  cbn [_get_json_loop]. destruct H as [H|H].
  - rewrite (session_get_unreachable ep 0); [reflexivity|].
    intros k Hk. apply H. lia.
  - rewrite (session_get_times_out ep 0); [reflexivity|].
    intros k Hk. apply H. lia.
Qed.

Lemma get_json_connection_error_witness :
  _get_json unreachable 0 = (Raise ConnectionError, 4).
Proof.
  apply (get_json_connection_error unreachable). left. intros k _.
  unfold unreachable, scripted. now destruct k as [|[|k]].
Defined.

Lemma success_not_retried (r : Response) :
  (200 <= status_code r < 300)%Z ->
  is_retry (status_forcelist session_retry) r = false.
Proof.
  intros H. unfold is_retry, session_retry, RETRY_AFTER_STATUS_CODES.
  cbn [status_forcelist existsb].
  repeat match goal with
         | |- context [(status_code r =? ?z)%Z] =>
             destruct (Z.eqb_spec (status_code r) z); [lia|]
         end.
  cbn [orb]. apply andb_false_r.
Qed.

(** X4: a response with a 2xx status whose body is not JSON ends the call
    at once with the decoding error: it is neither retried nor turned into
    an [HTTPError]. *)
Theorem get_json_body_not_json (ep : endpoint) (n : nat) (r : Response) :
  ep n = Answer r ->
  (200 <= status_code r < 300)%Z ->
  body r = None ->
  _get_json ep n = (Raise JSONDecodeError, S n).
Proof.
  intros Er Hstatus Hbody.
  pose proof (success_not_retried r Hstatus) as Hno.
  assert (~ (400 <= status_code r < 600)%Z) as Hok by lia.
  unfold _get_json. change (seq 1 7) with (1 :: seq 2 6).
  cbn [_get_json_loop].
  rewrite (HttpFacts.session_get_passes ep n r Er Hno).
  rewrite (HttpFacts.not_retried_not_429 r Hno).
  unfold raise_for_status, resp_json. rewrite Hbody.
  destruct (Z.leb_spec 400 (status_code r));
    destruct (Z.ltb_spec (status_code r) 600); cbn [andb]; try reflexivity. lia.
Qed.

Lemma get_json_body_not_json_witness :
  _get_json html_200 0 = (Raise JSONDecodeError, 1).
Proof.
  apply (get_json_body_not_json html_200 0 (mkResponse 200 false None));
    try reflexivity.
  cbn. lia.
Defined.

(** *** What a successful call returns *)

Lemma urlopen_answer (forcelist : list Z) (ep : endpoint) :
  forall budget c rd s n r,
    fst (urlopen budget c rd s forcelist ep n) = Ok r ->
    exists k, n <= k < snd (urlopen budget c rd s forcelist ep n) /\
              ep k = Answer r.
Proof.
  induction budget as [|t IH]; intros c rd s n r; cbn [urlopen];
    destruct (ep n) as [resp| |] eqn:E; try destruct (is_retry forcelist resp);
    try destruct s; try destruct c; try destruct rd;
    cbn [fst snd]; try discriminate;
    try (intros H; injection H as <-; exists n; split; [lia|exact E]);
    intros H;
    match goal with
    | |- context [urlopen t ?c' ?r' ?s' forcelist ep (S n)] =>
        destruct (IH c' r' s' (S n) r H) as (k & Hk & Ek);
        exists k; split; [lia|exact Ek]
    end.
Qed.

Lemma ok_status (r : Response) :
  raise_for_status r = Ok tt -> ~ (400 <= status_code r < 600)%Z.
Proof.
  unfold raise_for_status.
  destruct (Z.leb_spec 400 (status_code r));
    destruct (Z.ltb_spec (status_code r) 600); cbn [andb];
    try discriminate; lia.
Qed.

Lemma loop_answer (ep : endpoint) (attempts : list nat) : forall last n j,
  (forall resp, last = Some resp -> raise_for_status resp <> Ok tt) ->
  fst (_get_json_loop attempts last ep n) = Ok j ->
  exists k r, n <= k < snd (_get_json_loop attempts last ep n) /\
              ep k = Answer r /\ body r = Some j /\
              raise_for_status r = Ok tt.
Proof.
  induction attempts as [|a attempts IH]; intros last n j Hlast;
    cbn [_get_json_loop].
  - destruct last as [resp|]; cbn [fst]; [|discriminate].
    destruct (raise_for_status resp) as [[]|] eqn:E; [|discriminate].
    now elim (Hlast resp).
  - pose proof (urlopen_answer (status_forcelist session_retry) ep
                  (total session_retry) (connect session_retry)
                  (read session_retry) (status session_retry) n) as Hans.
    fold (session_get ep n) in Hans.
    destruct (session_get ep n) as [[resp|e] n']; cbn [fst snd] in *;
      [|discriminate].
    destruct (Hans resp eq_refl) as (k & Hk & Ek).
    assert (forall last', (forall r, last' = Some r -> raise_for_status r <> Ok tt) ->
              fst (_get_json_loop attempts last' ep n') = Ok j ->
              exists k r, n <= k < snd (_get_json_loop attempts last' ep n') /\
                          ep k = Answer r /\ body r = Some j /\
                          raise_for_status r = Ok tt) as Hnext.
    { intros last' Hl H. destruct (IH last' n' j Hl H) as (k' & r' & Hk' & Hr').
      exists k', r'. split; [lia|exact Hr']. }
    destruct (status_code resp =? 429)%Z eqn:E429.
    + apply Hnext. intros r Hr. injection Hr as <-.
      apply Z.eqb_eq in E429. rewrite error_status_raises by lia. discriminate.
    + destruct (raise_for_status resp) as [[]|e] eqn:Eraise.
      * cbn [fst snd]. unfold resp_json. destruct (body resp) eqn:Eb; [|discriminate].
        intros H. injection H as <-. exists k, resp. repeat split; try assumption; lia.
      * destruct (7 <=? a)%nat; [discriminate|].
        apply Hnext. intros r Hr. injection Hr as <-. congruence.
Qed.

(** X5: when [_get_json] returns a document, that document is the body of
    a response the endpoint really gave to one of the requests of this
    call, and that response did not have an error status: no body of a
    4xx or 5xx answer is ever returned. *)
Theorem get_json_returns_a_good_body (ep : endpoint) (n : nat) (j : json) :
  fst (_get_json ep n) = Ok j ->
  exists k r, n <= k < snd (_get_json ep n) /\
              ep k = Answer r /\ body r = Some j /\
              ~ (400 <= status_code r < 600)%Z.
Proof.
  intros H. destruct (loop_answer ep (seq 1 7) None n j) as (k & r & Hk & Er & Hb & Hs);
    [discriminate|exact H|].
  exists k, r. repeat split; try assumption; try apply Hk. now apply ok_status.
Qed.

Lemma get_json_returns_a_good_body_witness :
  exists k r, 0 <= k < snd (_get_json rate_limited_thrice 0) /\
              rate_limited_thrice k = Answer r /\ body r = Some sample_body /\
              ~ (400 <= status_code r < 600)%Z.
Proof.
  apply (get_json_returns_a_good_body rate_limited_thrice 0 sample_body).
  reflexivity.
Defined.

End HttpMore.

(** ** More on the hourly frames *)

Module FrameMore.
Import Pandas FrameFacts.

Section Frames.

Variable dt : list json -> json -> option Z.

(** *** Payloads without an hourly block *)

Lemma lacks_hourly_empty (raw : json) (c : string) :
  lacks_hourly raw = true -> _hourly_to_df dt raw c = Ok empty_frame.
Proof.
  unfold lacks_hourly, _hourly_to_df, rbind. destruct raw; try discriminate.
  cbn [dict_get]. destruct (assoc "hourly" members) as [hourly|].
  - intros H. now rewrite H.
  - reflexivity.
Qed.

(** X6: when at least one payload is present (truthy) and no payload
    that is present has an hourly block, [combine_hourly] does not return
    an empty table: the concatenation has no [time] column and the sort
    raises [KeyError]. *)
Theorem combine_hourly_no_hourly_block (raw_archive raw_forecast : json)
    (c : string) :
  (truthy raw_archive || truthy raw_forecast) = true ->
  (truthy raw_archive = true -> lacks_hourly raw_archive = true) ->
  (truthy raw_forecast = true -> lacks_hourly raw_forecast = true) ->
  combine_hourly dt raw_archive raw_forecast c = Raise (KeyError "time").
Proof.
  intros Hsome Ha Hf. unfold combine_hourly, rbind.
  destruct (truthy raw_archive) eqn:Ta; destruct (truthy raw_forecast) eqn:Tf;
    try discriminate;
    rewrite ?(lacks_hourly_empty raw_archive c (Ha eq_refl)),
            ?(lacks_hourly_empty raw_forecast c (Hf eq_refl));
    reflexivity.
Qed.

(** *** Lists that do not line up *)

(** X7: with a non-empty [time] list of strings or nulls, the first field
    whose list has another length than [time] makes [_hourly_to_df] raise
    [ValueError], whatever comes after it: no row is padded or cut. *)
Theorem hourly_to_df_ragged (members : list (string * json)) (c : string)
    (pre post : list (string * json)) (xs vs : list json) (k : string) :
  assoc "hourly" members = Some (JObj (pre ++ (k, JArr vs) :: post)) ->
  assoc "time" (pre ++ (k, JArr vs) :: post) = Some (JArr xs) ->
  time_strings xs = true ->
  xs <> [] ->
  aligned (List.length xs) pre ->
  k <> "time" ->
  List.length vs <> List.length xs ->
  _hourly_to_df dt (JObj members) c = Raise ValueError.
Proof.
  intros Hh Ht _ Hxs Hal Hk Hlen.
  now apply (hourly_to_df_first_ragged dt members c pre post xs vs k).
Qed.

(** *** An hourly block without [time] *)

(** X8: an hourly block that has no [time] field but whose fields are
    lists of one length [m] is accepted: the frame takes its [m] rows from
    the first list, and every row has NaT for its time. *)
Theorem hourly_to_df_without_time (members : list (string * json)) (c : string)
    (fields : list (string * json)) (m : nat) :
  assoc "hourly" members = Some (JObj fields) ->
  fields <> [] ->
  assoc "time" fields = None ->
  aligned m fields ->
  exists df,
    _hourly_to_df dt (JObj members) c = Ok df /\
    map time (rows df) = repeat None m /\
    Forall (fun r => city r = c) (rows df).
Proof.
  intros Hh Hne Ht Hal. unfold _hourly_to_df, rbind. cbn [dict_get].
  rewrite Hh. destruct fields as [|[k0 v0] rest]; [contradiction|].
  cbn [truthy negb dict_get]. rewrite Ht. cbn [time_frame List.length to_datetime map].
  assert ((k0 =? "time") = false) as Hk0.
  { cbn [assoc] in Ht. destruct (k0 =? "time"); [discriminate|reflexivity]. }
  inversion Hal as [|? ? Hkv Hrest]; subst. cbn [fst snd] in Hkv.
  destruct Hkv as [Hkv|(vs0 & -> & Hlen)];
    [apply String.eqb_neq in Hk0; contradiction|].
  cbn [assign_columns]. rewrite Hk0.
  assert (exists df1, setitem (mkColumns 0 [] [] None) k0 (JArr vs0) = Ok df1 /\
                      nrows df1 = m /\ times df1 = repeat None m)
    as (df1 & -> & Hn1 & Ht1).
  { unfold setitem. cbn [nrows times cols]. rewrite Hlen.
    destruct (Nat.eqb_spec m 0) as [->|Hm].
    - eexists. split; [reflexivity|]. now split.
    - eexists. split; [reflexivity|]. now split. }
  rewrite <- Hn1 in Hrest.
  destruct (assign_columns_aligned rest df1 Hrest) as (df' & -> & Hn & Htimes).
  exists (with_city df' c). split; [reflexivity|split].
  - rewrite with_city_times; [now rewrite Htimes, Ht1|].
    rewrite Htimes, Ht1, Hn, Hn1. apply repeat_length.
  - apply Forall_forall. intros r. apply with_city_rows.
Qed.

(** *** The measurements of a well-formed block *)

Lemma assoc_put_same (k : string) (vs : list json) (cs : list (string * list json)) :
  assoc k (put k vs cs) = Some vs.
Proof.
  induction cs as [|[k' old] cs IH]; cbn [put assoc].
  - now rewrite String.eqb_refl.
  - destruct (k' =? k) eqn:E; cbn [assoc]; rewrite E; [reflexivity|exact IH].
Qed.

Lemma assoc_put_other (k k' : string) (vs : list json)
    (cs : list (string * list json)) :
  k <> k' -> assoc k (put k' vs cs) = assoc k cs.
Proof.
  intros Hne. induction cs as [|[k0 old] cs IH]; cbn [put assoc].
  - destruct (String.eqb_spec k' k); [congruence|reflexivity].
  - destruct (String.eqb_spec k0 k') as [->|]; cbn [assoc].
    + destruct (String.eqb_spec k' k); [congruence|reflexivity].
    + now rewrite IH.
Qed.

Lemma assign_columns_cols (fields : list (string * json)) : forall df df',
  aligned (nrows df) fields -> NoDup (map fst fields) ->
  assign_columns fields df = Ok df' ->
  (forall k, ~ In k (map fst fields) -> assoc k (cols df') = assoc k (cols df)) /\
  (forall k vs, In (k, JArr vs) fields -> k <> "time" ->
                assoc k (cols df') = Some vs).
Proof.
  induction fields as [|[k0 v0] fields IH]; intros df df' Hal Hnd;
    cbn [assign_columns].
  - intros E. injection E as <-. split; [reflexivity|intros k vs []].
  - inversion Hal as [|? ? Hkv Hrest]; subst. cbn [fst snd] in Hkv.
    cbn [map fst] in Hnd. apply NoDup_cons_iff in Hnd as [Hk0 Hnd].
    destruct (String.eqb_spec k0 "time") as [->|Hne].
    + intros E. destruct (IH df df' Hrest Hnd E) as [Hother Hin]. split.
      * intros k Hk. apply Hother. intros H. apply Hk. now right.
      * intros k vs [E'|Hk] Hkt; [injection E' as <- _; contradiction|].
        now apply Hin.
    + destruct Hkv as [Hkv|(vs0 & -> & Hlen)]; [contradiction|].
      unfold setitem. rewrite Hlen, Nat.eqb_refl. intros E.
      destruct (IH (mkColumns (nrows df) (times df) (put k0 vs0 (cols df)) (labels df)) df'
                  Hrest Hnd E) as [Hother Hin].
      cbn [cols] in Hother. split.
      * intros k Hk. rewrite Hother by (intros H; apply Hk; now right).
        apply assoc_put_other. intros ->. apply Hk. now left.
      * intros k vs [E'|Hk] Hkt; [|now apply Hin].
        injection E' as <- <-. rewrite (Hother k0 Hk0). apply assoc_put_same.
Qed.

Lemma cell_row_at (df : Columns) (c k : string) (vs : list json) (i : nat) :
  k <> "city" -> assoc k (cols df) = Some vs ->
  cell k (row_at df c i) = nth i vs JNull.
Proof.
  intros Hk. unfold cell, row_at. cbn [cells].
  induction (cols df) as [|[k0 col0] cs IH]; cbn [assoc filter map fst snd].
  - discriminate.
  - destruct (String.eqb_spec k0 "city") as [->|Hk0]; cbn [negb].
    + destruct (String.eqb_spec "city" k); [congruence|exact IH].
    + cbn [map assoc fst snd]. destruct (k0 =? k); [|exact IH].
      intros E. now injection E as <-.
Qed.

(** X9: on a well-formed block (the fields of a dict, [time] a list of
    strings or nulls, each list as long as [time]) a measurement list of
    nulls and of numbers that float64 holds exactly becomes the column of
    its name, entry [i] in row [i]: nothing is reordered, dropped, shifted
    or rounded. *)
Theorem hourly_to_df_keeps_columns (members : list (string * json)) (c : string)
    (fields : list (string * json)) (xs vs : list json) (k : string) :
  assoc "hourly" members = Some (JObj fields) ->
  assoc "time" fields = Some (JArr xs) ->
  time_strings xs = true ->
  aligned (List.length xs) fields ->
  NoDup (map fst fields) ->
  In (k, JArr vs) fields -> k <> "time" -> k <> "city" ->
  forallb measurement vs = true ->
  exists df,
    _hourly_to_df dt (JObj members) c = Ok df /\
    map (cell k) (rows df) = vs /\
    map time (rows df) = map (dt xs) xs.
Proof.
  intros Hh Ht _ Hal Hnd Hin Hkt Hkc _. unfold _hourly_to_df, rbind. cbn [dict_get].
  rewrite Hh. assert (truthy (JObj fields) = true) as ->.
  { destruct fields; [destruct Hin|reflexivity]. }
  cbn [negb dict_get]. rewrite Ht. cbn [time_frame].
  destruct (assign_columns_aligned fields
              (mkColumns (List.length xs) (to_datetime dt xs) [] None) Hal)
    as (df' & E & Hn & Htimes).
  rewrite E. cbn [nrows times] in Hn, Htimes.
  destruct (assign_columns_cols fields
              (mkColumns (List.length xs) (to_datetime dt xs) [] None) df' Hal Hnd E)
    as [_ Hcols].
  specialize (Hcols k vs Hin Hkt).
  exists (with_city df' c). split; [reflexivity|split].
  - cbn [with_city rows]. rewrite map_map.
    rewrite (map_ext _ (fun i => nth i vs JNull))
      by (intros i; now apply cell_row_at).
    assert (List.length vs = nrows df') as <-.
    { rewrite Hn. unfold aligned in Hal. rewrite Forall_forall in Hal.
      destruct (Hal _ Hin) as [H|(vs' & E' & Hlen)]; [contradiction|].
      cbn [snd] in E'. now injection E' as <-. }
    apply map_nth_seq.
  - rewrite with_city_times; [exact Htimes|].
    rewrite Htimes, Hn. apply length_map.
Qed.

(** *** What [combine_hourly] keeps *)

Lemma drop_seen_length (rs : list Row) : forall seen,
  List.length (drop_seen seen rs) <= List.length rs.
Proof.
  induction rs as [|r rs IH]; intros seen; cbn [drop_seen List.length]; [lia|].
  destruct (existsb _ seen); cbn [List.length].
  - specialize (IH seen). lia.
  - specialize (IH (row_key r :: seen)). lia.
Qed.

(** X10: the table [combine_hourly] returns is made of rows of the two
    normalised frames and of nothing else, it has a row under every key
    that occurs in either frame and under no other, one row per key, and
    so never more rows than the two frames together. *)
Theorem combine_hourly_keeps_keys (raw_archive raw_forecast : json) (c : string)
    (a f out : DataFrame) :
  truthy raw_archive = true -> truthy raw_forecast = true ->
  _hourly_to_df dt raw_archive c = Ok a ->
  _hourly_to_df dt raw_forecast c = Ok f ->
  combine_hourly dt raw_archive raw_forecast c = Ok out ->
  (forall r, In r (rows out) -> In r (rows a) \/ In r (rows f)) /\
  (forall k, In k (keys (rows out)) <->
             In k (keys (rows a)) \/ In k (keys (rows f))) /\
  NoDup (keys (rows out)) /\
  List.length (rows out) <= List.length (rows a) + List.length (rows f).
Proof.
  intros Ta Tf Ea Ef. unfold combine_hourly, rbind. rewrite Ta, Tf, Ea, Ef.
  cbn [app concat]. intros H.
  apply (dedup_sort_rows (mkFrame _ _)) in H as [Hrows _]. cbn [rows flat_map] in Hrows.
  rewrite app_nil_r in Hrows.
  pose proof (sort_rows_perm by_time (drop_seen [] (rows a ++ rows f))) as Hperm.
  rewrite <- Hrows in Hperm.
  assert (forall r, In r (rows out) -> In r (rows a) \/ In r (rows f)) as Hin.
  { intros r Hr. apply (Permutation_in _ Hperm) in Hr.
    apply drop_seen_incl in Hr as [Hr _]. now apply in_app_or. }
  split; [exact Hin|split; [|split]].
  - intros k. split.
    + intros Hk. apply in_map_iff in Hk as (r & <- & Hr).
      destruct (Hin r Hr); [left|right]; now apply in_map.
    + intros Hk.
      apply (Permutation_in _ (Permutation_map row_key (Permutation_sym Hperm))).
      apply drop_seen_keeps_keys; [|easy].
      rewrite map_app. apply in_or_app. exact Hk.
  - apply (Permutation_NoDup (Permutation_map row_key (Permutation_sym Hperm))).
    apply drop_seen_NoDup.
  - rewrite (Permutation_length Hperm), <- length_app. apply drop_seen_length.
Qed.

End Frames.

Lemma combine_hourly_no_hourly_block_witness :
  combine_hourly Iso8601.coerce Samples.no_hourly JNull "Austin"
  = Raise (KeyError "time").
Proof.
  apply (combine_hourly_no_hourly_block Iso8601.coerce Samples.no_hourly JNull
           "Austin"); [reflexivity|reflexivity|discriminate].
Defined.

Lemma hourly_to_df_ragged_witness :
  _hourly_to_df Iso8601.coerce Samples.ragged_payload "Austin" = Raise ValueError.
Proof.
  apply (hourly_to_df_ragged Iso8601.coerce _ "Austin"
           [("time", JArr [JStr "2024-10-01T00:00"])] []
           [JStr "2024-10-01T00:00"] [Samples.num 1; Samples.num 2]
           "temperature_2m");
    try reflexivity; try discriminate.
  apply Forall_cons; [now left|apply Forall_nil].
Defined.

Lemma hourly_to_df_without_time_witness :
  exists df,
    _hourly_to_df Iso8601.coerce Samples.untimed_payload "Austin" = Ok df /\
    map time (rows df) = [None; None] /\
    Forall (fun r => city r = "Austin") (rows df).
Proof.
  apply (hourly_to_df_without_time Iso8601.coerce _ "Austin"
           [ ("temperature_2m", JArr [Samples.num 10; Samples.num 11]);
             ("rain", JArr [Samples.num 0; Samples.num 1]) ] 2);
    try reflexivity; try discriminate.
  apply Forall_cons; [right; eexists; split; reflexivity|].
  apply Forall_cons; [right; eexists; split; reflexivity|].
  apply Forall_nil.
Defined.

Lemma hourly_to_df_keeps_columns_witness :
  exists df,
    _hourly_to_df Iso8601.coerce Samples.odd_payload "Austin" = Ok df /\
    map (cell "uv_index") (rows df) = [Samples.num 1; Samples.num 2] /\
    map time (rows df) = [Samples.t_0000; None].
Proof.
  apply (hourly_to_df_keeps_columns Iso8601.coerce
           [("hourly", JObj Samples.odd_fields)] "Austin" Samples.odd_fields
           [JStr "2024-10-02T00:00"; JStr "not a time"]
           [Samples.num 1; Samples.num 2] "uv_index");
    try reflexivity; try discriminate.
  - apply Forall_cons; [now left|].
    apply Forall_cons; [right; eexists; split; reflexivity|].
    apply Forall_cons; [right; eexists; split; reflexivity|].
    apply Forall_nil.
  - vm_compute. repeat constructor; cbn; intuition discriminate.
  - vm_compute. do 2 right. left. reflexivity.
Defined.

Lemma combine_hourly_keeps_keys_witness :
  (forall r, In r (rows Samples.austin_table) ->
     In r (rows (Samples.frame_of
                   (_hourly_to_df Iso8601.coerce Samples.archive_austin "Austin"))) \/
     In r (rows (Samples.frame_of
                   (_hourly_to_df Iso8601.coerce Samples.forecast_austin "Austin")))) /\
  (forall k, In k (keys (rows Samples.austin_table)) <->
     In k (keys (rows (Samples.frame_of
                   (_hourly_to_df Iso8601.coerce Samples.archive_austin "Austin")))) \/
     In k (keys (rows (Samples.frame_of
                   (_hourly_to_df Iso8601.coerce Samples.forecast_austin "Austin"))))) /\
  NoDup (keys (rows Samples.austin_table)) /\
  List.length (rows Samples.austin_table)
  <= List.length (rows (Samples.frame_of
                   (_hourly_to_df Iso8601.coerce Samples.archive_austin "Austin")))
     + List.length (rows (Samples.frame_of
                   (_hourly_to_df Iso8601.coerce Samples.forecast_austin "Austin"))).
Proof.
  apply (combine_hourly_keeps_keys Iso8601.coerce Samples.archive_austin
           Samples.forecast_austin "Austin"); vm_compute; reflexivity.
Defined.

End FrameMore.

(** ** More on the daily summary *)

Module DailyMore.
Import Pandas DailyFacts.

(** *** Missing columns *)

(** X11: a non-empty table that has its [time] and [city] columns but
    lacks one of the columns of [agg_map] is not summarised over the
    columns it has: [summarize_daily] raises [KeyError] for a missing
    column. *)
Theorem summarize_daily_missing_column (df : DataFrame) (c : string) :
  empty df = false ->
  has_column df "time" = true -> has_column df "city" = true ->
  In c (map fst agg_map) -> has_column df c = false ->
  exists c', summarize_daily df = Raise (KeyError c') /\
             In c' (map fst agg_map) /\ has_column df c' = false.
Proof.
  intros Hempty Ht Hc Hin Hmiss. unfold summarize_daily.
  rewrite Hempty, Ht, Hc. cbn [negb].
  assert (In c (missing_columns df)) as Hc'.
  { unfold missing_columns. apply filter_In. split; [exact Hin|]. now rewrite Hmiss. }
  destruct (missing_columns df) as [|c' rest] eqn:E; [destruct Hc'|].
  exists c'. split; [reflexivity|].
  assert (In c' (missing_columns df)) as H by (rewrite E; now left).
  unfold missing_columns in H. apply filter_In in H as [H1 H2].
  split; [exact H1|]. now destruct (has_column df c').
Qed.

Lemma summarize_daily_missing_column_witness :
  exists c', summarize_daily Samples.odd_frame = Raise (KeyError c') /\
             In c' (map fst agg_map) /\ has_column Samples.odd_frame c' = false.
Proof.
  apply (summarize_daily_missing_column Samples.odd_frame "rain");
    try reflexivity.
  vm_compute. do 3 right. left. reflexivity.
Defined.

(** *** Rows without a timestamp *)

Lemma group_keys_timed (rs : list Row) : forall acc,
  fold_left add_row_key (filter timed rs) acc = fold_left add_row_key rs acc.
Proof.
  induction rs as [|r rs IH]; intros acc; cbn [filter fold_left]; [reflexivity|].
  destruct (timed r) eqn:E; cbn [fold_left]; [apply IH|].
  assert (add_row_key acc r = acc) as ->; [|apply IH].
  unfold add_row_key, row_date. unfold timed in E.
  now destruct (time r).
Qed.

Lemma group_rows_timed (k : gkey) (rs : list Row) :
  group_rows k (filter timed rs) = group_rows k rs.
Proof.
  unfold group_rows. induction rs as [|r rs IH]; cbn [filter]; [reflexivity|].
  destruct (timed r) eqn:E; cbn [filter]; [now rewrite IH|].
  rewrite IH. unfold in_group, row_date. unfold timed in E.
  destruct (time r); [discriminate|]. cbn [option_map]. now rewrite andb_false_r.
Qed.

Lemma agg_groups_ext (ks : list gkey) (rs rs' : list Row) :
  (forall k, group_rows k rs = group_rows k rs') ->
  agg_groups ks rs = agg_groups ks rs'.
Proof.
  intros H. induction ks as [|k ks IH]; cbn [agg_groups]; [reflexivity|].
  now rewrite H, IH.
Qed.

(** X12: rows whose time is NaT take no part in the daily summary: as long
    as one row has a timestamp, the summary of a table is that of the table
    without its NaT rows. *)
Theorem summarize_daily_ignores_nat (cols : list string) (rs : list Row) :
  filter timed rs <> [] ->
  summarize_daily (mkFrame cols (filter timed rs))
  = summarize_daily (mkFrame cols rs).
Proof.
  intros Hne. assert (rs <> []) as Hrs by (intros ->; now apply Hne).
  unfold summarize_daily, empty, has_column, missing_columns, has_column.
  cbn [columns rows].
  destruct cols as [|c cols]; [reflexivity|].
  destruct (filter timed rs) as [|r0 rest] eqn:E; [contradiction|].
  destruct rs as [|r rs']; [contradiction|]. rewrite <- E.
  destruct (negb (existsb (String.eqb "time") (c :: cols))); [reflexivity|].
  destruct (negb (existsb (String.eqb "city") (c :: cols))); [reflexivity|].
  destruct (filter _ (map fst agg_map)); [|reflexivity].
  unfold group_keys. rewrite group_keys_timed.
  now rewrite (agg_groups_ext _ (filter timed (r :: rs')) (r :: rs')
                 (fun k => group_rows_timed k (r :: rs'))).
Qed.

Lemma summarize_daily_ignores_nat_witness :
  summarize_daily (mkFrame (columns Samples.gappy_frame)
                           (filter timed (rows Samples.gappy_frame)))
  = summarize_daily Samples.gappy_frame.
Proof.
  assert (filter timed (rows Samples.gappy_frame) <> []) as H
    by (vm_compute; discriminate).
  exact (summarize_daily_ignores_nat (columns Samples.gappy_frame)
           (rows Samples.gappy_frame) H
         <: summarize_daily (mkFrame (columns Samples.gappy_frame)
                               (filter timed (rows Samples.gappy_frame)))
            = summarize_daily Samples.gappy_frame).
Defined.

(** *** The order of the daily table *)

Lemma gkey_lt_order (a b : gkey) : gkey_lt a b -> date_order a b.
Proof.
  destruct a as [ca da], b as [cb db].
  unfold gkey_lt, gkey_compare, date_order, String.ltb. cbn [fst snd].
  pose proof (String_as_OT.cmp_eq ca cb) as Heq. unfold String_as_OT.cmp in Heq.
  destruct (String.compare ca cb); [|now left|discriminate].
  intros H. right. split; [now apply Heq|]. now apply Z.compare_lt_iff.
Qed.

Lemma agg_groups_keys (ks : list gkey) (rs : list Row) :
  forall l, agg_groups ks rs = Ok l -> map fst l = ks.
Proof.
  induction ks as [|k ks IH]; intros l; cbn [agg_groups]; unfold rbind.
  - intros E. now injection E as <-.
  - destruct (aggregate_columns _ _); [|discriminate].
    destruct (agg_groups ks rs) as [others|]; [|discriminate].
    intros E. injection E as <-. cbn [map fst]. now rewrite (IH others).
Qed.

Lemma sorted_by_date_order (l : list gkey) :
  StronglySorted gkey_lt l -> StronglySorted date_order l.
Proof.
  induction 1 as [|k l _ IH Hall]; constructor; [exact IH|].
  eapply Forall_impl; [|exact Hall]. intros b. apply gkey_lt_order.
Qed.

(** X13: whenever [summarize_daily] returns the summary of a non-empty
    table, its rows are in strictly ascending order of [(city, date)]: the
    city first, then the day; so no [(city, date)] occurs twice. *)
Theorem daily_rows_ascending (df : DataFrame) (daily : DailyFrame) :
  empty df = false ->
  summarize_daily df = Ok daily ->
  StronglySorted date_order (map daily_key (d_rows daily)) /\
  NoDup (map daily_key (d_rows daily)).
Proof.
  intros Hempty. unfold summarize_daily. rewrite Hempty.
  destruct (negb (has_column df "time")); [discriminate|].
  destruct (negb (has_column df "city")); [discriminate|].
  destruct (missing_columns df); [|discriminate]. unfold rbind.
  destruct (agg_groups _ _) as [l|] eqn:E; [|discriminate].
  intros H. injection H as <-. cbn [d_rows].
  match goal with
  | |- context [map daily_key (map ?f l)] =>
      assert (map daily_key (map f l) = group_keys (rows df)) as ->
  end.
  { rewrite <- (agg_groups_keys _ _ l E), map_map. apply map_ext.
    intros [[c d] vs]. reflexivity. }
  split; [apply sorted_by_date_order|apply sorted_keys_NoDup];
    apply group_keys_sorted.
Qed.

Lemma daily_rows_ascending_witness :
  StronglySorted date_order
    (map daily_key (d_rows (Samples.daily_of Samples.gappy_frame))) /\
  NoDup (map daily_key (d_rows (Samples.daily_of Samples.gappy_frame))).
Proof.
  apply (daily_rows_ascending Samples.gappy_frame); reflexivity.
Defined.

End DailyMore.

(** ** More on the pipeline *)

Module PipelineMore.
Import Pandas Pipeline FrameFacts PipelineFacts.

(** *** Names of the raw files *)

Lemma tidy_char (c : ascii) :
  tidy (if Ascii.eqb (lower_ascii c) " "%char then "_"%char else lower_ascii c)
  = true.
Proof. destruct c as [[] [] [] [] [] [] [] []]; reflexivity. Qed.

Lemma tidy_fixed (c : ascii) :
  tidy c = true ->
  (if Ascii.eqb (lower_ascii c) " "%char then "_"%char else lower_ascii c) = c.
Proof. destruct c as [[] [] [] [] [] [] [] []]; (reflexivity || discriminate). Qed.

Lemma safe_city_tidy (city : string) :
  string_forall tidy (replace_space (lower city)) = true.
Proof.
  induction city as [|c city IH]; [reflexivity|].
  cbn [lower replace_space string_forall]. now rewrite tidy_char, IH.
Qed.

Lemma tidy_safe_city (s : string) :
  string_forall tidy s = true -> replace_space (lower s) = s.
Proof.
  induction s as [|c s IH]; [reflexivity|]. cbn [string_forall lower replace_space].
  intros H. apply andb_true_iff in H as [Hc Hs]. now rewrite (tidy_fixed c Hc), IH.
Qed.

(** X14: the city part of a raw file name holds no space and no
    upper-case ASCII letter, and a name that is already in that form is
    kept as it is; so two location names that differ only in case, or in a
    space against an underscore, are saved under one and the same path. *)
Theorem raw_json_name_folds_case (city kind : string) (start end_ : option string) :
  let safe_city := replace_space (lower city) in
  string_forall tidy safe_city = true /\
  raw_json_name safe_city kind start end_ = raw_json_name city kind start end_ /\
  (forall city',
     replace_space (lower city') = safe_city ->
     forall payload raw_dir,
       fst (save_raw_json payload raw_dir city' kind start end_)
       = fst (save_raw_json payload raw_dir city kind start end_)).
Proof.
  cbv zeta. split; [apply safe_city_tidy|split].
  - unfold raw_json_name. now rewrite (tidy_safe_city _ (safe_city_tidy city)).
  - intros city' E payload raw_dir. unfold save_raw_json, raw_json_name.
    now rewrite E.
Qed.

(** *** Location names that begin with a slash *)





(** *** The raw files of one location *)



Section Worker.

Variable dt : list json -> json -> option Z.


End Worker.

(** *** One failing location *)

Lemma compute_raises {A} (tasks : list (IO A)) :
  Exists (fun t => exists e, fst t = Raise e) tasks ->
  exists e, fst (compute tasks) = Raise e.
Proof.
  induction tasks as [|t tasks IH]; intros H; [inversion H|].
  cbn [compute]. rewrite bind_result. destruct (fst t) as [a|e] eqn:Et; [|eauto].
  rewrite bind_result. inversion H as [? ? (e & He)|? ? Hrest]; subst; [congruence|].
  destruct (IH Hrest) as (e & ->). eauto.
Qed.

Section Run.

Variable dt : list json -> json -> option Z.
Variables (settings : Settings) (locations : list Location) (net : network).
Variables (start end_ : option string).

Let task (loc : Location) : IO (option DataFrame) :=
  _worker_fetch_city dt net loc
    (or_default start (default_start_date settings))
    (or_default end_ (default_end_date settings))
    (os_path_join (data_dir settings) "raw").

Let processed (file : string) : string :=
  os_path_join (os_path_join (data_dir settings) "processed") file.

(** X16: one location that fails is fatal for the whole run.  If the task
    of some location raises, the run ends with a non-zero exit status and
    writes no hourly or daily table, whatever the other locations
    returned: a failing location is not dropped silently. *)
Theorem one_failure_aborts (loc : Location) (e : exn) :
  In loc locations -> fst (task loc) = Raise e ->
  exit_status (run_pipeline dt settings locations net start end_) <> 0%Z /\
  tables_written (run_pipeline dt settings locations net start end_) = [].
Proof.
  intros Hin Hraise. unfold exit_status, tables_written, run_pipeline.
  fold task. rewrite bind_result, bind_writes, filter_app.
  pose proof (tasks_write_json dt settings locations net start end_) as Hjson.
  pose proof (tasks_ordinary dt settings locations net start end_) as Hord.
  fold task in Hjson, Hord. rewrite (filter_none _ _ Hjson). cbn [app].
  destruct (compute_raises (map task locations)) as (e' & He').
  { apply Exists_exists. exists (task loc). split; [now apply in_map|eauto]. }
  rewrite He' in *. split; [|reflexivity].
  destruct e'; try discriminate. contradiction.
Qed.

(** X17: what a run leaves in the processed directory is one of three
    things.  Nothing; or the hourly table as parquet alone, which happens
    when [summarize_daily] raises, since the hourly table is saved before it
    is summarised; or four files in this order: the hourly table as
    parquet, its daily summary as parquet, and the same two tables as
    CSV. *)
Theorem run_leaves :
  let run := run_pipeline dt settings locations net start end_ in
  tables_written run = [] \/
  (exists hourly_df e,
     summarize_daily hourly_df = Raise e /\
     tables_written run
     = [ (processed "hourly.parquet", ParquetFile (HourlyTable hourly_df)) ]) \/
  (exists hourly_df daily_df,
     summarize_daily hourly_df = Ok daily_df /\
     tables_written run
     = [ (processed "hourly.parquet", ParquetFile (HourlyTable hourly_df));
         (processed "daily_summary.parquet", ParquetFile (DailyTable daily_df));
         (processed "hourly.csv", CsvFile (HourlyTable hourly_df));
         (processed "daily_summary.csv", CsvFile (DailyTable daily_df)) ]).
Proof.
  cbv zeta. unfold tables_written, run_pipeline, processed.
  fold task. rewrite bind_writes, filter_app.
  pose proof (tasks_write_json dt settings locations net start end_) as Hjson.
  fold task in Hjson. rewrite (filter_none _ _ Hjson). cbn [app].
  destruct (fst (compute (map task locations))) as [results|e]; [|now left].
  destruct (not_none results) as [|d tables]; [now left|].
  rewrite bind_writes. cbn [lift fst snd app].
  destruct (merge_hourly (d :: tables)) as [hourly_df|e]; [|now left].
  unfold save_parquet, save_csv.
  rewrite bind_writes. cbn [write_file fst snd app].
  rewrite bind_writes. cbn [lift fst snd app].
  destruct (summarize_daily hourly_df) as [daily_df|e] eqn:Edaily.
  - rewrite bind_writes. cbn [write_file fst snd app].
    rewrite bind_writes. cbn [write_file fst snd app filter is_table].
    right. right. now exists hourly_df, daily_df.
  - cbn [filter is_table snd]. right. left. now exists hourly_df, e.
Qed.

End Run.


Lemma raw_json_name_folds_case_witness :
  fst (save_raw_json JNull "./data/raw" "new_york" "archive" None None)
  = fst (save_raw_json JNull "./data/raw" "New York" "archive" None None).
Proof.
  apply (proj2 (proj2 (raw_json_name_folds_case "New York" "archive" None None))
           "new_york").
  reflexivity.
Defined.

Lemma one_failure_aborts_witness :
  exit_status (run_pipeline Iso8601.coerce Samples.settings
                 [Samples.austin; Samples.berlin] Samples.net_partial None None)
  <> 0%Z /\
  tables_written (run_pipeline Iso8601.coerce Samples.settings
                    [Samples.austin; Samples.berlin] Samples.net_partial None None)
  = [].
Proof.
  apply (one_failure_aborts Iso8601.coerce Samples.settings
           [Samples.austin; Samples.berlin] Samples.net_partial None None
           Samples.berlin ConnectionError).
  - right. left. reflexivity.
  - reflexivity.
Defined.

(** The middle case occurs: a payload without a humidity column gives an
    hourly table that is saved and then cannot be summarised. *)
Example hourly_table_left_alone :
  exists hourly_df,
    tables_written (run_pipeline Iso8601.coerce Samples.settings [Samples.austin]
                      Samples.net_odd None None)
    = [ ("./data/processed/hourly.parquet", ParquetFile (HourlyTable hourly_df)) ].
Proof. vm_compute. eexists. reflexivity. Qed.

End PipelineMore.

(** ** The plots *)

Module PlotFacts.
Import Pandas Pipeline.

Lemma safe_city_commutes (city : string) :
  lower (replace_space city) = replace_space (lower city).
Proof.
  induction city as [|c city IH]; [reflexivity|].
  cbn [lower replace_space]. rewrite IH. f_equal.
  destruct c as [[] [] [] [] [] [] [] []]; reflexivity.
Qed.

Lemma plot_columns_paths (df : DataFrame) (city out_dir : string) :
  has_column df "time" = true ->
  forall names,
    plot_columns df city out_dir names
    = Ok (map (fun col => os_path_join out_dir (plot_name city col))
              (filter (has_column df) names)).
Proof.
  intros Htime. induction names as [|col names IH]; [reflexivity|].
  cbn [plot_columns filter]. destruct (has_column df col); [|exact IH].
  now rewrite Htime, IH.
Qed.

Lemma plot_timeseries_paths (hourly : DataFrame) (city out_dir : string) :
  has_column hourly "city" = true -> has_column hourly "time" = true ->
  plot_timeseries hourly city out_dir
  = Ok (if existsb (fun r => Pandas.city r =? city) (rows hourly)
        then map (fun col => os_path_join out_dir (plot_name city col))
                 (filter (has_column hourly) PLOT_COLUMNS)
        else []).
Proof.
  intros Hcity Htime. unfold plot_timeseries. rewrite Hcity. cbn [negb].
  unfold empty. cbn [columns rows].
  destruct (columns hourly) as [|c0 cs] eqn:Ecols;
    [unfold has_column in Hcity; rewrite Ecols in Hcity; discriminate Hcity|].
  assert (existsb (fun r => Pandas.city r =? city) (rows hourly)
          = match filter (fun r => Pandas.city r =? city) (rows hourly) with
            | [] => false
            | _ => true
            end) as ->.
  { induction (rows hourly) as [|r rs IH]; [reflexivity|].
    cbn [existsb filter]. now destruct (Pandas.city r =? city). }
  destruct (filter _ (rows hourly)) as [|r rs]; [reflexivity|].
  rewrite plot_columns_paths.
  - unfold has_column. cbn [columns]. now rewrite Ecols.
  - unfold has_column in *. cbn [columns]. now rewrite <- Ecols.
Qed.



(** X20: the image of a column is named after the same folded city name
    as the raw files, so the images of two cities whose names differ only
    in case, or in a space against an underscore, have the same paths: when
    both cities have rows in the table, the second call writes over the
    images of the first. *)
Theorem plot_names_collide (hourly : DataFrame) (city city' out_dir : string) :
  has_column hourly "city" = true -> has_column hourly "time" = true ->
  existsb (fun r => Pandas.city r =? city) (rows hourly) = true ->
  existsb (fun r => Pandas.city r =? city') (rows hourly) = true ->
  replace_space (lower city) = replace_space (lower city') ->
  plot_timeseries hourly city out_dir = plot_timeseries hourly city' out_dir.
Proof.
  intros Hcity Htime Hrows Hrows' Hsafe.
  rewrite !plot_timeseries_paths, Hrows, Hrows' by assumption.
  f_equal. apply map_ext. intros col. unfold plot_name.
  now rewrite !safe_city_commutes, Hsafe.
Qed.

Lemma plot_names_collide_witness :
  plot_timeseries
    (mkFrame ["time"; "temperature_2m"; "city"]
             [mkRow None "New York" []; mkRow None "new_york" []])
    "New York" "plots"
  = plot_timeseries
      (mkFrame ["time"; "temperature_2m"; "city"]
               [mkRow None "New York" []; mkRow None "new_york" []])
      "new_york" "plots".
Proof.
  apply (plot_names_collide
           (mkFrame ["time"; "temperature_2m"; "city"]
                    [mkRow None "New York" []; mkRow None "new_york" []])
           "New York" "new_york" "plots"); reflexivity.
Defined.

End PlotFacts.

(** ** The upload *)

Module UploadFacts.
Import Upload.

Lemma lstrip_sep_relative (s : string) : startswith_sep (lstrip_sep s) = false.
Proof.
  induction s as [|c s IH]; [reflexivity|]. cbn [lstrip_sep].
  destruct (Ascii.eqb c "/"%char) eqn:E; [exact IH|exact E].
Qed.

Lemma rstrip_sep_slash (s : string) : rstrip_sep (s ++ "/") = rstrip_sep s.
Proof.
  induction s as [|c s IH]; [reflexivity|].
  cbn [append rstrip_sep]. now rewrite IH.
Qed.

Lemma rstrip_sep_app (s t : string) :
  rstrip_sep t <> EmptyString -> rstrip_sep (s ++ t) = (s ++ rstrip_sep t)%string.
Proof.
  intros Ht. induction s as [|c s IH]; [reflexivity|].
  cbn [append rstrip_sep]. rewrite IH.
  destruct (s ++ rstrip_sep t)%string eqn:E; [|reflexivity].
  destruct s; [contradiction|discriminate].
Qed.

Lemma upload_keys_uris (upload_file : string -> string -> bool) (bucket : string) :
  forall keys uploaded,
    upload_keys upload_file bucket keys = Some uploaded ->
    uploaded = map (s3_uri bucket) keys.
Proof.
  induction keys as [|key keys IH]; intros uploaded; cbn [upload_keys map].
  - intros H. now injection H as <-.
  - destruct (upload_file bucket key); [|discriminate].
    destruct (upload_keys upload_file bucket keys) as [rest|]; [|discriminate].
    intros H. injection H as <-. now rewrite (IH rest eq_refl).
Qed.

(** X21: an upload that returns has sent one object per file found, and
    every URI it reports is [s3://<bucket>/<key>] with a key that does not
    begin with a slash, whatever the prefix and the files' names are. *)
Theorem upload_keys_relative (on_disk : entry)
    (upload_file : string -> string -> bool)
    (local_path bucket prefix : string) (uploaded : list string) :
  upload_path_to_s3 on_disk upload_file local_path bucket prefix = Some uploaded ->
  List.length uploaded
  = match on_disk with
    | Absent => 0%nat
    | RegularFile => 1%nat
    | Directory files => List.length files
    end /\
  Forall (fun uri => exists key,
            uri = s3_uri bucket key /\ startswith_sep key = false) uploaded.
Proof.
  unfold upload_path_to_s3. destruct on_disk as [| |files].
  - intros H. injection H as <-. split; [reflexivity|constructor].
  - intros H. apply upload_keys_uris in H as ->. split; [reflexivity|].
    repeat constructor. eexists. split; [reflexivity|apply lstrip_sep_relative].
  - intros H. apply upload_keys_uris in H as ->.
    rewrite !length_map. split; [reflexivity|].
    apply Forall_map, Forall_map, Forall_forall. intros rel _.
    eexists. split; [reflexivity|apply lstrip_sep_relative].
Qed.

Lemma upload_keys_relative_witness :
  List.length ["s3://bucket/data/raw/a.json"; "s3://bucket/data/hourly.csv"]
  = 2%nat /\
  Forall (fun uri => exists key,
            uri = s3_uri "bucket" key /\ startswith_sep key = false)
         ["s3://bucket/data/raw/a.json"; "s3://bucket/data/hourly.csv"].
Proof.
  apply (upload_keys_relative (Directory ["raw/a.json"; "hourly.csv"])
           (fun _ _ => true) "./data" "bucket" "/data//").
  reflexivity.
Defined.

(** X22: slashes at the end of the prefix do not matter: the call with
    [prefix/] uploads the same objects as the call with [prefix]. *)
Theorem upload_prefix_trailing_slash (on_disk : entry)
    (upload_file : string -> string -> bool) (local_path bucket prefix : string) :
  upload_path_to_s3 on_disk upload_file local_path bucket (prefix ++ "/")
  = upload_path_to_s3 on_disk upload_file local_path bucket prefix.
Proof.
  unfold upload_path_to_s3, s3_key. now rewrite rstrip_sep_slash.
Qed.

(** X23: [run_pipeline] uploads the reports under [s3_prefix + "reports/"]
    and puts no separator of its own in between: the key of a report is
    the prefix, [reports/] and the relative path written one after the
    other, less the leading slashes.  With a prefix that does not end in a
    slash the reports are therefore not below the prefix of the data. *)
Theorem reports_prefix_joined (s3_prefix rel : string) :
  s3_key (s3_prefix ++ "reports/") rel
  = lstrip_sep (s3_prefix ++ "reports/" ++ rel).
Proof.
  unfold s3_key. rewrite rstrip_sep_app by discriminate.
  f_equal. change (rstrip_sep "reports/") with "reports".
  induction s3_prefix as [|c t IH]; [reflexivity|].
  change (String c t ++ "reports")%string with (String c (t ++ "reports")).
  change (String c t ++ "reports/" ++ rel)%string
    with (String c (t ++ "reports/" ++ rel)).
  change (String c (t ++ "reports") ++ "/" ++ rel)%string
    with (String c ((t ++ "reports") ++ "/" ++ rel)).
  now rewrite IH.
Qed.

End UploadFacts.
